(** * Recipe organizer API: query building, pagination, validation, statistics

    A shallow embedding of the request handlers of the recipe controller
    ([getAllRecipes], [createRecipe], [updateRecipe], [searchRecipes],
    [getRecipeStats]), of the [validateRecipe] chain of
    [middleware/validation.js] and of the [Recipe] schema of
    [models/recipe.js], followed by the properties of the specification that
    were checked against them.

    Conventions.
    - A JavaScript string is a [string]: a sequence of code units below 256.
    - A JavaScript number is a [JS.number]: [NaN], an integer or an infinity.
      The two zeros are identified, and the loss of precision above 2^53 is
      not modelled.
    - The document store is a list of [Recipe] documents in insertion order;
      the clock ([Date.now()]) and the identifier the driver generates for a
      new document are arguments of the handlers that use them. *)

From Stdlib Require Import ZArith QArith Ascii String List Lia.
From Stdlib Require Import Sorting.Sorted Sorting.Permutation.
From stdpp Require Import base option list strings gmap.

Local Open Scope string_scope.
Local Open Scope list_scope.
Local Open Scope Z_scope.

(** ** JavaScript primitives used by the handlers *)

Module JS.

(** [WhiteSpace] and [LineTerminator] code units below 256: TAB, LF, VT, FF,
    CR, SP and NBSP. [String.prototype.trim], [parseInt], [Number] and the
    [\s] class of validator.js all use this set. *)
Definition isWhiteSpace (c : ascii) : bool :=
  let n := nat_of_ascii c in
  ((9 <=? n)%nat && (n <=? 13)%nat) || (n =? 32)%nat || (n =? 160)%nat.

Fixpoint trimStart (s : string) : string :=
  match s with
  | String c s' => if isWhiteSpace c then trimStart s' else s
  | EmptyString => EmptyString
  end.

Fixpoint trimEnd (s : string) : string :=
  match s with
  | String c s' =>
      match trimEnd s' with
      | EmptyString =>
          if isWhiteSpace c then EmptyString else String c EmptyString
      | r => String c r
      end
  | EmptyString => EmptyString
  end.

(** [s.trim()] *)
Definition trim (s : string) : string := trimEnd (trimStart s).

Definition lowerChar (c : ascii) : ascii :=
  let n := nat_of_ascii c in
  if ((65 <=? n)%nat && (n <=? 90)%nat)
     || ((192 <=? n)%nat && (n <=? 222)%nat && negb (n =? 215)%nat)
  then ascii_of_nat (n + 32) else c.

(** [s.toLowerCase()] *)
Fixpoint toLowerCase (s : string) : string :=
  match s with
  | String c s' => String (lowerChar c) (toLowerCase s')
  | EmptyString => EmptyString
  end.

(** [s.split(',')]: the pieces between commas; never the empty list. *)
Fixpoint splitComma (s : string) : list string :=
  match s with
  | EmptyString => [EmptyString]
  | String c s' =>
      if Ascii.eqb c ","%char then EmptyString :: splitComma s'
      else match splitComma s' with
           | p :: ps => String c p :: ps
           | [] => [String c EmptyString]
           end
  end.

(** Truthiness of a string: every string but the empty one. *)
Definition truthy (s : string) : bool :=
  match s with EmptyString => false | _ => true end.

(** A query-string parameter is absent ([undefined]) or a string. The test
    [if (p)] succeeds for a present, non-empty parameter; [p || null] is
    the parameter in that case and [null] otherwise. *)
Definition given (p : option string) : option string :=
  match p with
  | Some s => if truthy s then Some s else None
  | None => None
  end.

(** *** Numbers *)

Inductive number :=
| NaN
| Num (z : Z)
| Inf (negative : bool).

(** Value of a digit in radix up to 16. *)
Definition digitValue (c : ascii) : option Z :=
  let n := Z.of_nat (nat_of_ascii c) in
  if (48 <=? n) && (n <=? 57) then Some (n - 48)
  else if (97 <=? n) && (n <=? 102) then Some (n - 87)
  else if (65 <=? n) && (n <=? 70) then Some (n - 55)
  else None.

Definition digitIn (radix : Z) (c : ascii) : option Z :=
  match digitValue c with
  | Some d => if d <? radix then Some d else None
  | None => None
  end.

(** The longest prefix of radix-[radix] digits: its value if it is not
    empty, and the rest of the string. *)
Fixpoint digits (radix : Z) (acc : option Z) (s : string) : option Z * string :=
  match s with
  | String c s' =>
      match digitIn radix c with
      | Some d => digits radix (Some (radix * default 0 acc + d)) s'
      | None => (acc, s)
      end
  | EmptyString => (acc, s)
  end.

Definition signOf (s : string) : bool * string :=
  match s with
  | String "-" s' => (true, s')
  | String "+" s' => (false, s')
  | _ => (false, s)
  end.

Definition hexPrefix (s : string) : option string :=
  match s with
  | String "0" (String "x" s') | String "0" (String "X" s') => Some s'
  | _ => None
  end.

(** [parseInt(s)] with no radix argument: leading white space is skipped,
    a sign is read, a [0x] prefix selects radix 16, and the longest prefix
    of digits is the value; [NaN] when that prefix is empty. *)
Definition parseIntStr (s : string) : number :=
  let '(neg, body) := signOf (trimStart s) in
  let '(radix, body) :=
    match hexPrefix body with
    | Some rest => (16, rest)
    | None => (10, body)
    end in
  match fst (digits radix None body) with
  | Some n => Num (if neg then - n else n)
  | None => NaN
  end.

(** [parseInt(p)] of a query parameter; [parseInt(undefined)] is [NaN]. *)
Definition parseInt (p : option string) : number :=
  match p with
  | Some s => parseIntStr s
  | None => NaN
  end.

(** [n || d] for a number [n]: [NaN] and zero are falsy. *)
Definition orDefault (n : number) (d : Z) : number :=
  match n with
  | NaN => Num d
  | Num 0 => Num d
  | _ => n
  end.

(** *** [Number(s)] on strings

    The grammar of [StringNumericLiteral] is recognised in full, so that
    [isNaN] is exact. The value is computed for the literals whose value is
    an integer written without fraction or exponent, and for [Infinity];
    for the other numeric literals (a fraction, an exponent, a negative
    zero) [toNumber] answers [None]: a double that this model does not
    represent. *)

Definition isSome {A} (o : option A) : bool :=
  match o with Some _ => true | None => false end.

Definition nonDecimalPrefix (s : string) : option (Z * string) :=
  match s with
  | String "0" (String "x" r) | String "0" (String "X" r) => Some (16, r)
  | String "0" (String "o" r) | String "0" (String "O" r) => Some (8, r)
  | String "0" (String "b" r) | String "0" (String "B" r) => Some (2, r)
  | _ => None
  end.

(** [ExponentPart], or nothing, up to the end of the string. *)
Definition exponentPart (s : string) : bool :=
  match s with
  | EmptyString => true
  | String c r =>
      if Ascii.eqb c "e"%char || Ascii.eqb c "E"%char then
        match digits 10 None (snd (signOf r)) with
        | (Some _, EmptyString) => true
        | _ => false
        end
      else false
  end.

(** [StrUnsignedDecimalLiteral] but [Infinity]: [None] when the string is
    not one, [Some (Some n)] for a sequence of digits of value [n],
    [Some None] for a literal with a fraction or an exponent. *)
Definition unsignedDecimal (s : string) : option (option Z) :=
  let '(ip, r) := digits 10 None s in
  match r with
  | EmptyString =>
      match ip with Some n => Some (Some n) | None => None end
  | String "." r' =>
      let '(fp, r'') := digits 10 None r' in
      if (isSome ip || isSome fp) && exponentPart r'' then Some None else None
  | _ => if isSome ip && exponentPart r then Some None else None
  end.

Definition toNumber (s : string) : option number :=
  let t := trim s in
  match t with
  | EmptyString => Some (Num 0)
  | _ =>
      match nonDecimalPrefix t with
      | Some (radix, r) =>
          match digits radix None r with
          | (Some n, EmptyString) => Some (Num n)
          | _ => Some NaN
          end
      | None =>
          let '(neg, u) := signOf t in
          if String.eqb u "Infinity" then Some (Inf neg)
          else match unsignedDecimal u with
               | None => Some NaN
               | Some None => None
               | Some (Some n) =>
                   if neg && (n =? 0) then None
                   else Some (Num (if neg then - n else n))
               end
      end
  end.

(** [isNaN(s)] for a string [s]. *)
Definition isNaN (s : string) : bool :=
  match toNumber s with
  | Some NaN => true
  | _ => false
  end.

(** *** Arithmetic and comparison *)

(** [a - 1] *)
Definition pred (a : number) : number :=
  match a with
  | Num z => Num (z - 1)
  | _ => a
  end.

(** [a * b] *)
Definition mul (a b : number) : number :=
  match a, b with
  | NaN, _ | _, NaN => NaN
  | Num x, Num y => Num (x * y)
  | Inf s, Num y | Num y, Inf s =>
      if y =? 0 then NaN else Inf (xorb s (y <? 0))
  | Inf s, Inf t => Inf (xorb s t)
  end.

(** [Math.ceil(total / b)] for a count [total] (a non-negative integer). *)
Definition ceilDiv (total : Z) (b : number) : number :=
  match b with
  | NaN => NaN
  | Num 0 => if total =? 0 then NaN else Inf false
  | Num y => Num (- ((- total) / y))
  | Inf _ => Num 0
  end.

(** [a < b] *)
Definition lt (a b : number) : bool :=
  match a, b with
  | NaN, _ | _, NaN => false
  | Num x, Num y => x <? y
  | Inf s, Inf t => s && negb t
  | Inf s, Num _ => s
  | Num _, Inf t => negb t
  end.

(** *** JSON values of a request body (objects and fractional numbers are
    left out) *)

#[warnings="-register-all"]
Inductive json :=
| JNull
| JBool (b : bool)
| JNum (n : Z)
| JStr (s : string)
| JArr (l : list json).

Definition truthyJson (v : json) : bool :=
  match v with
  | JNull | JBool false | JNum 0 | JStr EmptyString => false
  | _ => true
  end.

End JS.

(** ** The Recipe schema (models/recipe.js) *)

Definition ObjectId := string.

(** A stored document. [cookingTime] and [servings] have no default and may
    be missing; [difficulty] and the two dates have defaults; array paths
    default to the empty array. Dates are milliseconds since the epoch. *)
Record Recipe := {
  _id : ObjectId;
  title : string;
  ingredients : list string;
  instructions : string;
  cookingTime : option Z;
  servings : option Z;
  difficulty : string;
  tags : list string;
  createdAt : Z;
  updatedAt : Z
}.

(** ** Requests *)

(** [req.body] of a create or update request, by the seven keys that
    [validateRecipe] checks. [title], [instructions] and [difficulty] are
    strings and [cookingTime] and [servings] are integers when present;
    [ingredients] and [tags] are arbitrary JSON values. [None] is an absent
    key. A body that carries other paths of the schema ([_id], [createdAt],
    [updatedAt]) is outside this type: the handlers hand such keys on to
    the model layer, and nothing is stated here about the identifier or the
    creation date that a write leaves. *)
Module body.
Record t := {
  title : option string;
  ingredients : option JS.json;
  instructions : option string;
  cookingTime : option Z;
  servings : option Z;
  difficulty : option string;
  tags : option JS.json
}.
End body.

(** [req.query]: every parameter is absent or a string. *)
Module query.
Record t := {
  page : option string;
  limit : option string;
  difficulty : option string;
  tags : option string;
  q : option string;
  ingredient : option string;
  cookingTimeMax : option string;
  servingsMin : option string
}.
End query.

(** What reaches the model layer: the body once its arrays were cleaned. *)
Module fields.
Record t := {
  title : option string;
  ingredients : option (list string);
  instructions : option string;
  cookingTime : option Z;
  servings : option Z;
  difficulty : option string;
  tags : option (list string)
}.
End fields.

(** A field-level error as the handlers report it ([field] and [message];
    the rejected value is left out). *)
Record FieldError := { path : string; msg : string }.

(** ** middleware/validation.js *)

Module validation.

(** validator.js [isLength({min, max})] *)
Definition isLength (min max : nat) (s : string) : bool :=
  (min <=? String.length s)%nat && (String.length s <=? max)%nat.

Definition failing (ok : bool) (field message : string) : list FieldError :=
  if ok then [] else [{| path := field; msg := message |}].

Definition difficulties : list string := ["easy"; "medium"; "hard"].

Definition isIn (l : list string) (s : string) : bool :=
  existsb (String.eqb s) l.

(** [body('title').trim().notEmpty()...isLength({ min: 3, max: 100 })]: the
    sanitizer runs first, on the empty string when the key is absent, and
    every validator of the chain reports its own failure. *)
Definition title (v : option string) : list FieldError * string :=
  let s := JS.trim (default "" v) in
  (failing (JS.truthy s) "title" "Title is required"
   ++ failing (isLength 3 100 s) "title"
        "Title must be between 3 and 100 characters", s).

Definition nonEmptyString (x : JS.json) : bool :=
  match x with
  | JS.JStr s => JS.truthy (JS.trim s)
  | _ => false
  end.

(** [body('ingredients').isArray({ min: 1 }).custom(...)]. On a value that
    is not an array, [ingredients.every] throws and the custom validator
    fails with the message of the engine. *)
Definition ingredients (v : option JS.json) : list FieldError :=
  match v with
  | Some (JS.JArr l) =>
      failing (1 <=? length l)%nat "ingredients"
        "At least one ingredient is required"
      ++ failing (forallb nonEmptyString l) "ingredients"
           "All ingredients must be non-empty strings"
  | _ =>
      [{| path := "ingredients";
          msg := "At least one ingredient is required" |};
       {| path := "ingredients";
          msg := match v with
                 | None => "Cannot read properties of undefined (reading 'every')"
                 | Some JS.JNull => "Cannot read properties of null (reading 'every')"
                 | Some _ => "ingredients.every is not a function"
                 end |}]
  end.

(** [body('instructions').trim().notEmpty()
      ...isLength({ min: 10, max: 2000 })] *)
Definition instructions (v : option string) : list FieldError * string :=
  let s := JS.trim (default "" v) in
  (failing (JS.truthy s) "instructions" "Instructions are required"
   ++ failing (isLength 10 2000 s) "instructions"
        "Instructions must be between 10 and 2000 characters", s).

(** [.optional().isInt({ min: 1 })]: an absent key skips the chain. The
    validator reads the value as the string that [String] makes of it, and
    a number of [10^21] or more is printed with an exponent, which is no
    integer to it. *)
Definition positiveInt (field message : string) (v : option Z)
  : list FieldError :=
  match v with
  | Some n => failing ((1 <=? n) && (n <? 10 ^ 21)) field message
  | None => []
  end.

(** [body('difficulty').optional().isIn(['easy', 'medium', 'hard'])] *)
Definition difficulty (v : option string) : list FieldError :=
  match v with
  | Some d => failing (isIn difficulties d) "difficulty"
                "Difficulty must be easy, medium, or hard"
  | None => []
  end.

(** [body('tags').optional().isArray()] *)
Definition tags (v : option JS.json) : list FieldError :=
  match v with
  | Some (JS.JArr _) | None => []
  | Some _ => [{| path := "tags"; msg := "Tags must be an array" |}]
  end.

(** The sanitizers write their result back into [req.body]. *)
Definition sanitized (b : body.t) : body.t :=
  {| body.title := Some (snd (title (body.title b)));
     body.ingredients := body.ingredients b;
     body.instructions := Some (snd (instructions (body.instructions b)));
     body.cookingTime := body.cookingTime b;
     body.servings := body.servings b;
     body.difficulty := body.difficulty b;
     body.tags := body.tags b |}.

(** The chains of [validateRecipe], in order; [validationResult(req)] is
    the list of their errors. *)
Definition validateRecipe (b : body.t) : list FieldError :=
  fst (title (body.title b))
  ++ ingredients (body.ingredients b)
  ++ fst (instructions (body.instructions b))
  ++ positiveInt "cookingTime" "Cooking time must be a positive integer"
       (body.cookingTime b)
  ++ positiveInt "servings" "Servings must be a positive integer"
       (body.servings b)
  ++ difficulty (body.difficulty b)
  ++ tags (body.tags b).

End validation.

(** ** Responses *)

(** [res.status(s).json(...)]: a success envelope with its payload, or a
    failure envelope with its message and field errors. *)
Inductive Response (A : Type) :=
| Success (status : Z) (payload : A)
| Failure (status : Z) (message : string) (errors : list FieldError).
Arguments Success {A} status payload.
Arguments Failure {A} status message errors.

Definition status {A} (r : Response A) : Z :=
  match r with
  | Success s _ => s
  | Failure s _ _ => s
  end.

(** The field errors of a response that bear on [field]. *)
Definition errorsOn {A} (field : string) (r : Response A) : list FieldError :=
  match r with
  | Failure _ _ errors =>
      List.filter (fun e => String.eqb (path e) field) errors
  | Success _ _ => []
  end.

Module pagination.
Record t := {
  currentPage : JS.number;
  totalPages : JS.number;
  limit : JS.number;
  total : nat;
  hasNext : bool;
  hasPrev : bool
}.
End pagination.

Module searchQuery.
Record t := {
  textSearch : option string;
  ingredient : option string;
  difficulty : option string;
  tags : option string;
  cookingTimeMax : option string;
  servingsMin : option string
}.
End searchQuery.

(** The payload of the list and search responses; the list response has no
    [searchQuery] key. *)
Module page.
Record t := {
  count : nat;
  searchQuery : option searchQuery.t;
  pagination : pagination.t;
  data : list Recipe
}.
End page.

Module stats.
(** [difficulties] is a key of the aggregation row only, not of the
    fallback object. *)
Record Overview := {
  totalRecipes : nat;
  avgCookingTime : option Q;
  avgServings : option Q;
  difficulties : option (list string)
}.
Record Tag := { name : string; count : nat }.
Record t := {
  overview : Overview;
  difficultyBreakdown : gmap string nat;
  topTags : list Tag
}.
End stats.

(** ** Query documents *)

Module filter.
Record t := {
  text : option string;             (* $text: { $search } *)
  ingredients : option string;      (* { $regex, $options: 'i' } *)
  difficulty : option string;
  tags : option (list string);      (* { $in } *)
  cookingTime : option JS.number;   (* { $lte } *)
  servings : option JS.number       (* { $gte } *)
}.
End filter.

Inductive SortOptions :=
| CreatedDesc
    (* { createdAt: -1 } *)
| TextScoreThenCreatedDesc.
    (* { score: { $meta: 'textScore' }, createdAt: -1 } *)

(** ** Sorting and grouping, as the store does them *)

Section Sorting.
Context {A : Type} (le : A -> A -> bool).

Fixpoint insertBy (x : A) (l : list A) : list A :=
  match l with
  | [] => [x]
  | y :: l' => if le x y then x :: l else y :: insertBy x l'
  end.

(** A stable sort: among equal keys the input order is kept. *)
Definition sortBy (l : list A) : list A := foldr insertBy [] l.
End Sorting.

(** [$group: { _id: <key>, count: { $sum: 1 } }]: one counter per distinct
    key, in order of first occurrence. *)
Fixpoint bump (k : string) (acc : list (string * nat)) : list (string * nat) :=
  match acc with
  | [] => [(k, 1%nat)]
  | (k', n) :: acc' =>
      if String.eqb k k' then (k', S n) :: acc' else (k', n) :: bump k acc'
  end.

Definition groupCount (keys : list string) : list (string * nat) :=
  fold_left (fun acc k => bump k acc) keys [].

(** [$avg]: the mean of the values that are set, [null] when none is. *)
Definition avg (l : list (option Z)) : option Q :=
  match omap id l with
  | [] => None
  | v :: vs =>
      Some (Qmake (foldr Z.add 0 (v :: vs)) (Pos.of_nat (length (v :: vs))))
  end.

(** Nearest integer, ties to the even one. *)
Definition roundHalfEven (x : Q) : Z :=
  let n := Qnum x in
  let d := Zpos (Qden x) in
  let q := n / d in
  let r := n mod d in
  if 2 * r <? d then q
  else if d <? 2 * r then q + 1
  else if Z.even q then q else q + 1.

(** [$round: [x, 1]] on the exact mean; [null] stays [null]. *)
Definition round1 (x : option Q) : option Q :=
  match x with
  | Some v => Some (Qred (Qmake (roundHalfEven (Qmult v (Qmake 10 1))) 10))
  | None => None
  end.

(** ** A reference engine

    A small instance of what the store decides on its own, for the examples:
    identifiers are 24 hexadecimal digits, a text search matches the
    documents whose title is the search string, and a pattern is read as a
    literal, matched anywhere and without regard to case. *)

Module sample.

Definition isHex (c : ascii) : bool := JS.isSome (JS.digitIn 16 c).

Definition castObjectId (s : string) : option ObjectId :=
  if (String.length s =? 24)%nat && forallb isHex (list_ascii_of_string s)
  then Some s else None.

Definition textScore (s : string) (r : Recipe) : option Q :=
  if String.eqb s (title r) then Some (Qmake 1 1) else None.

Fixpoint contains (p s : string) : bool :=
  String.prefix p s
  || match s with
     | String _ s' => contains p s'
     | EmptyString => false
     end.

Definition regex (p : string) : option (string -> bool) :=
  Some (fun s => contains (JS.toLowerCase p) (JS.toLowerCase s)).

Definition pancakes : Recipe :=
  {| _id := "64b7f0c2a1d3e4f5a6b7c8d9";
     title := "Pancakes";
     ingredients := ["flour"; "milk"; "eggs"];
     instructions := "Whisk everything and fry in a hot pan.";
     cookingTime := Some 20;
     servings := Some 2;
     difficulty := "easy";
     tags := ["breakfast"; "quick"];
     createdAt := 1000;
     updatedAt := 1000 |}.

Definition porridge : Recipe :=
  {| _id := "64b7f0c2a1d3e4f5a6b7c8da";
     title := "Porridge";
     ingredients := ["oats"; "water"];
     instructions := "Simmer the oats until they are soft.";
     cookingTime := None;
     servings := None;
     difficulty := "medium";
     tags := ["breakfast"];
     createdAt := 2000;
     updatedAt := 2000 |}.

Definition noQuery : query.t :=
  {| query.page := None; query.limit := None; query.difficulty := None;
     query.tags := None; query.q := None; query.ingredient := None;
     query.cookingTimeMax := None; query.servingsMin := None |}.

(** A body with the given title and ingredients, valid when they are. *)
Definition recipeBody (title : string) (ingredients : list string) : body.t :=
  {| body.title := Some title;
     body.ingredients := Some (JS.JArr (map JS.JStr ingredients));
     body.instructions := Some "Boil the water, add the salt, wait.";
     body.cookingTime := None;
     body.servings := Some 4;
     body.difficulty := None;
     body.tags := None |}.

(** [?difficulty=extreme&tags= Quick ,spicy&cookingTimeMax=abc] *)
Definition sloppySearch : query.t :=
  {| query.page := None; query.limit := None;
     query.difficulty := Some "extreme";
     query.tags := Some " Quick ,spicy";
     query.q := None; query.ingredient := None;
     query.cookingTimeMax := Some "abc"; query.servingsMin := None |}.

(** The query string [?page=s] *)
Definition pageOnly (s : string) : query.t :=
  {| query.page := Some s; query.limit := None; query.difficulty := None;
     query.tags := None; query.q := None; query.ingredient := None;
     query.cookingTimeMax := None; query.servingsMin := None |}.

(** A valid body whose tags are the array [tags]. *)
Definition taggedBody (tags : list JS.json) : body.t :=
  {| body.title := Some "Spiced tea";
     body.ingredients := Some (JS.JArr [JS.JStr "tea"; JS.JStr "cardamom"]);
     body.instructions := Some "Boil the water, add the tea, wait.";
     body.cookingTime := Some 10;
     body.servings := None;
     body.difficulty := Some "easy";
     body.tags := Some (JS.JArr tags) |}.

(** The query string [?cookingTimeMax=s] *)
Definition within (s : string) : query.t :=
  {| query.page := None; query.limit := None; query.difficulty := None;
     query.tags := None; query.q := None; query.ingredient := None;
     query.cookingTimeMax := Some s; query.servingsMin := None |}.


End sample.

(** ** Routing *)

(** The payload of a delete response. *)
Module deleted.
Record t := { id : ObjectId; title : string }.
End deleted.

(** The methods the router registers handlers for. *)
Inductive Method := GET | POST | PUT | DELETE.

(** Where a request goes: to one of the handlers the router imports, with
    the route parameter [:id] where the path has one, or nowhere. *)
Inductive Route :=
| SearchRecipes
| GetAllRecipes
| CreateRecipe
| GetRecipe (id : string)
| UpdateRecipe (id : string)
| DeleteRecipe (id : string)
| NoRoute.

(** What a request is answered: a page of recipes, one recipe, the notice of
    a deletion, a statistics report, or nothing from this router. *)
Inductive Answer :=
| Page (r : option (Response page.t))
| One (r : Response Recipe)
| Gone (r : Response deleted.t)
| Report (r : Response stats.t)
| Unrouted.

Fixpoint hasSlash (s : string) : bool :=
  match s with
  | String c s' => Ascii.eqb c "/"%char || hasSlash s'
  | EmptyString => false
  end.

(** [s] without one final slash, if it has one. *)
Fixpoint dropFinalSlash (s : string) : string :=
  match s with
  | String c EmptyString => if Ascii.eqb c "/"%char then EmptyString else s
  | String c s' => String c (dropFinalSlash s')
  | EmptyString => EmptyString
  end.

(** The path of a request below the mount point, as the patterns [/] and
    [/:name] read it (routing is not strict: one final slash is allowed):
    [Some None] for the root, [Some (Some s)] for a single segment [s],
    [None] for any other path. Percent escapes are not decoded. *)
Definition segmentOf (path : string) : option (option string) :=
  match path with
  | EmptyString => Some None
  | String c rest =>
      if Ascii.eqb c "/"%char then
        match rest with
        | EmptyString => Some None
        | _ =>
            let s := dropFinalSlash rest in
            if JS.truthy s && negb (hasSlash s) then Some (Some s) else None
        end
      else None
  end.


(** ** Vocabulary of the properties *)


(** The request [req] with its [difficulty] parameter set to [d]. *)
Definition withDifficulty (d : option string) (req : query.t) : query.t :=
  {| query.page := query.page req;
     query.limit := query.limit req;
     query.difficulty := d;
     query.tags := query.tags req;
     query.q := query.q req;
     query.ingredient := query.ingredient req;
     query.cookingTimeMax := query.cookingTimeMax req;
     query.servingsMin := query.servingsMin req |}.

(** A response without its [searchQuery] block: the status, the count, the
    pagination block and the page of documents. *)
Definition withoutEcho (r : Response page.t) : Response page.t :=
  match r with
  | Success s p =>
      Success s {| page.count := page.count p;
                   page.searchQuery := None;
                   page.pagination := page.pagination p;
                   page.data := page.data p |}
  | Failure s m e => Failure s m e
  end.

(** A string that does not start with white space. *)
Definition trimmedStart (s : string) : Prop :=
  match s with
  | String c _ => JS.isWhiteSpace c = false
  | EmptyString => True
  end.

(** What a body that passes [validateRecipe] looks like. *)
Record Validated (b : body.t) : Prop := {
  valid_title :
    validation.isLength 3 100 (JS.trim (default "" (body.title b))) = true;
  valid_ingredients :
    exists strs, body.ingredients b = Some (JS.JArr (map JS.JStr strs))
                 /\ strs <> []
                 /\ Forall (fun s => JS.truthy (JS.trim s) = true) strs;
  valid_instructions :
    validation.isLength 10 2000
      (JS.trim (default "" (body.instructions b))) = true;
  valid_cookingTime : forall n, body.cookingTime b = Some n -> 1 <= n;
  valid_servings : forall n, body.servings b = Some n -> 1 <= n;
  valid_difficulty :
    forall d, body.difficulty b = Some d ->
              validation.isIn validation.difficulties d = true;
  valid_tags :
    body.tags b = None \/ exists l, body.tags b = Some (JS.JArr l)
}.

(** The fields that reach the model layer for a validated body whose
    ingredients are the strings [strs] and whose tags clean to [tags']. *)
Definition fieldsOf (b : body.t) (strs : list string)
    (tags' : option (list string)) : fields.t :=
  {| fields.title := Some (JS.trim (default "" (body.title b)));
     fields.ingredients := Some (map JS.trim strs);
     fields.instructions := Some (JS.trim (default "" (body.instructions b)));
     fields.cookingTime := body.cookingTime b;
     fields.servings := body.servings b;
     fields.difficulty := body.difficulty b;
     fields.tags := tags' |}.

Definition onTitle (e : FieldError) : bool := String.eqb (path e) "title".

(** A search parameter [param] with default [d] stands for the integer [n]:
    it is absent and [n] is the default, or it is a string that both
    [Number] and [parseInt] read as [n]. *)
Definition readsAs (d : Z) (param : option string) (n : Z) : Prop :=
  match param with
  | Some s => JS.toNumber s = Some (JS.Num n) /\ JS.parseIntStr s = JS.Num n
  | None => n = d
  end.

(** The counter of the key [k] in the rows of a [$group] stage; zero when
    the key has no row. *)
Fixpoint counter (k : string) (rows : list (string * nat)) : nat :=
  match rows with
  | [] => 0
  | (k', n) :: rows' => if String.eqb k k' then n else counter k rows'
  end.

(** The number of instances of the tag [name] in the collection. *)
Definition instances (name : string) (docs : list Recipe) : nat :=
  length (List.filter (String.eqb name) (flat_map tags docs)).

(** A string that is not empty and has no white space at either end. *)
Definition trimmed (s : string) : Prop :=
  s <> EmptyString /\ JS.trim s = s.

(** A tag as the handlers normalize it: trimmed and in lower case. *)
Definition normalized (t : string) : Prop :=
  trimmed t /\ JS.toLowerCase t = t.

(** A record as the validators and the cleaning of the handlers leave it. *)
Record WellFormed (r : Recipe) : Prop := {
  wf_title :
    (3 <= String.length (title r) <= 100)%nat /\ JS.trim (title r) = title r;
  wf_ingredients : ingredients r <> [] /\ Forall trimmed (ingredients r);
  wf_instructions :
    (10 <= String.length (instructions r) <= 2000)%nat
    /\ JS.trim (instructions r) = instructions r;
  wf_cookingTime : forall n, cookingTime r = Some n -> 1 <= n;
  wf_servings : forall n, servings r = Some n -> 1 <= n;
  wf_difficulty : In (difficulty r) validation.difficulties;
  wf_tags : Forall normalized (tags r)
}.

(** The array [l] holds a value that is truthy and is not a string. *)
Definition hasForeignElement (l : list JS.json) : Prop :=
  exists x, In x l /\ JS.truthyJson x = true /\ forall s, x <> JS.JStr s.

(** The record has one of the tags [wanted]. *)
Definition sharesTag (wanted : list string) (r : Recipe) : Prop :=
  exists t, In t (tags r) /\ In t wanted.

(** The first document of the collection with identifier [oid]. *)
Definition byId (oid : ObjectId) (docs : list Recipe) : option Recipe :=
  List.find (fun r => String.eqb (_id r) oid) docs.

(** The number of records of the collection with difficulty [d]. *)
Definition withDifficultyCount (d : string) (docs : list Recipe) : nat :=
  length (List.filter (String.eqb d) (map difficulty docs)).






(** ** The model layer and the handlers *)

Section Controller.

(** What the store and the driver decide on their own: whether a route
    parameter is the text of an [ObjectId], the relevance of a document for
    a [$text] search ([None]: no match), and the compilation of a
    case-insensitive regular expression ([None]: the pattern is rejected). *)
Variable castObjectId : string -> option ObjectId.
Variable textScore : string -> Recipe -> option Q.
Variable regex : string -> option (string -> bool).

(** *** Queries *)

(** Mongoose casts the bound of a range clause to a number and refuses
    [NaN]; the pattern of a [$regex] clause has to compile. *)
Definition castable (f : filter.t) : bool :=
  match filter.ingredients f with
  | Some p => JS.isSome (regex p)
  | None => true
  end
  && match filter.cookingTime f with Some JS.NaN => false | _ => true end
  && match filter.servings f with Some JS.NaN => false | _ => true end.

(** All the clauses present are combined with AND. A range clause never
    matches a document in which the path is missing. *)
Definition matches (f : filter.t) (r : Recipe) : bool :=
  match filter.text f with
  | Some s => JS.isSome (textScore s r)
  | None => true
  end
  && match filter.ingredients f with
     | Some p =>
         match regex p with
         | Some m => existsb m (ingredients r)
         | None => false
         end
     | None => true
     end
  && match filter.difficulty f with
     | Some d => String.eqb (difficulty r) d
     | None => true
     end
  && match filter.tags f with
     | Some l => existsb (fun t => existsb (String.eqb t) l) (tags r)
     | None => true
     end
  && match filter.cookingTime f, cookingTime r with
     | Some b, Some c => negb (JS.lt b (JS.Num c))
     | Some _, None => false
     | None, _ => true
     end
  && match filter.servings f, servings r with
     | Some b, Some c => negb (JS.lt (JS.Num c) b)
     | Some _, None => false
     | None, _ => true
     end.

Definition score (f : filter.t) (r : Recipe) : Q :=
  match filter.text f with
  | Some s => default (Qmake 0 1) (textScore s r)
  | None => Qmake 0 1
  end.

(** [r1] may come before [r2] *)
Definition before (f : filter.t) (o : SortOptions) (r1 r2 : Recipe) : bool :=
  match o with
  | CreatedDesc => createdAt r2 <=? createdAt r1
  | TextScoreThenCreatedDesc =>
      if Qeq_bool (score f r1) (score f r2)
      then createdAt r2 <=? createdAt r1
      else Qle_bool (score f r2) (score f r1)
  end.

(** [.skip(s).limit(n)]: the store rejects a skip that is not a
    non-negative integer and a limit that is not an integer; a limit of
    zero is no limit, a negative limit is its absolute value. *)
Definition window (skip limit : JS.number) (l : list Recipe)
  : option (list Recipe) :=
  match skip, limit with
  | JS.Num s, JS.Num n =>
      if s <? 0 then None
      else
        let rest := drop (Z.to_nat s) l in
        Some (if n =? 0 then rest else take (Z.abs_nat n) rest)
  | _, _ => None
  end.

(** [Recipe.find(f).sort(o).skip(s).limit(n)]; [None] when the query
    rejects. *)
Definition Recipe_find (f : filter.t) (o : SortOptions)
    (skip limit : JS.number) (docs : list Recipe) : option (list Recipe) :=
  if castable f
  then window skip limit (sortBy (before f o) (List.filter (matches f) docs))
  else None.

(** [Recipe.countDocuments(f)] *)
Definition Recipe_countDocuments (f : filter.t) (docs : list Recipe)
  : option nat :=
  if castable f then Some (length (List.filter (matches f) docs)) else None.

(** *** Writes *)

Definition positive (field message : string) (v : option Z) : list FieldError :=
  match v with
  | Some n => validation.failing (1 <=? n) field message
  | None => []
  end.

Definition requiredString (creating : bool) (field missing : string)
    (max : nat) (tooLong : string) (v : option string) : list FieldError :=
  match v with
  | Some s =>
      validation.failing (JS.truthy (JS.trim s)) field missing
      ++ validation.failing (String.length (JS.trim s) <=? max)%nat
           field tooLong
  | None => if creating then [{| path := field; msg := missing |}] else []
  end.

(** The validators of the schema, on the paths that are written (all the
    required ones when a document is created). An error on an element of
    [ingredients] is reported under [ingredients], without its index. *)
Definition schemaErrors (creating : bool) (f : fields.t) : list FieldError :=
  requiredString creating "title" "Recipe title is required"
    100 "Title cannot be more than 100 characters" (fields.title f)
  ++ flat_map
       (fun s => validation.failing (JS.truthy (JS.trim s)) "ingredients"
                   "At least one ingredient is required")
       (default [] (fields.ingredients f))
  ++ requiredString creating "instructions" "Instructions are required"
       2000 "Instructions cannot be more than 2000 characters"
       (fields.instructions f)
  ++ positive "cookingTime" "Cooking time must be at least 1 minute"
       (fields.cookingTime f)
  ++ positive "servings" "Servings must be at least 1" (fields.servings f)
  ++ match fields.difficulty f with
     | Some d =>
         validation.failing (validation.isIn validation.difficulties d)
           "difficulty" "Validator failed for path `difficulty`"
     | None => []
     end.

(** [new Recipe(f)] at time [now] with identifier [oid]: the setters trim
    the strings, the defaults fill what is missing, and the [pre('save')]
    hook sets [updatedAt]. The fields [f] carry neither an identifier nor a
    date, so the document takes the identifier of the driver, and one
    reading of the clock stands for the default of [createdAt] and for the
    hook, which read it one after the other. *)
Definition newRecipe (now : Z) (oid : ObjectId) (f : fields.t) : Recipe :=
  {| _id := oid;
     title := JS.trim (default "" (fields.title f));
     ingredients := map JS.trim (default [] (fields.ingredients f));
     instructions := JS.trim (default "" (fields.instructions f));
     cookingTime := fields.cookingTime f;
     servings := fields.servings f;
     difficulty := default "medium" (fields.difficulty f);
     tags := map JS.trim (default [] (fields.tags f));
     createdAt := now;
     updatedAt := now |}.

(** [Recipe.create(f)]: the validation errors, or the saved document. *)
Definition Recipe_create (now : Z) (oid : ObjectId) (f : fields.t)
  : list FieldError + Recipe :=
  match schemaErrors true f with
  | [] => inr (newRecipe now oid f)
  | errors => inl errors
  end.

(** [$set] of the paths of [{ ...req.body, updatedAt: now }] on a stored
    document: a path absent from the update keeps its value. The fields [f]
    carry neither [_id] nor [createdAt], which stay for that reason only. *)
Definition applyUpdate (f : fields.t) (now : Z) (r : Recipe) : Recipe :=
  {| _id := _id r;
     title := default (title r) (JS.trim <$> fields.title f);
     ingredients :=
       default (ingredients r) (map JS.trim <$> fields.ingredients f);
     instructions :=
       default (instructions r) (JS.trim <$> fields.instructions f);
     cookingTime :=
       match fields.cookingTime f with
       | Some n => Some n
       | None => cookingTime r
       end;
     servings :=
       match fields.servings f with Some n => Some n | None => servings r end;
     difficulty := default (difficulty r) (fields.difficulty f);
     tags := default (tags r) (map JS.trim <$> fields.tags f);
     createdAt := createdAt r;
     updatedAt := now |}.

(** The first document with identifier [oid] is replaced by its image. *)
Fixpoint updateOne (oid : ObjectId) (g : Recipe -> Recipe)
    (docs : list Recipe) : option (Recipe * list Recipe) :=
  match docs with
  | [] => None
  | r :: rest =>
      if String.eqb (_id r) oid then Some (g r, g r :: rest)
      else
        match updateOne oid g rest with
        | Some (r', rest') => Some (r', r :: rest')
        | None => None
        end
  end.

Inductive WriteError :=
| CastError
| ValidationError (errors : list FieldError).

(** [Recipe.findByIdAndUpdate(id, { ...f, updatedAt: now },
    { new: true, runValidators: true })]: the updated document and the new
    collection, or [null] and the collection as it was. *)
Definition Recipe_findByIdAndUpdate (id : string) (f : fields.t) (now : Z)
    (docs : list Recipe) : WriteError + (option Recipe * list Recipe) :=
  match castObjectId id with
  | None => inl CastError
  | Some oid =>
      match schemaErrors false f with
      | [] =>
          match updateOne oid (applyUpdate f now) docs with
          | Some (r, docs') => inr (Some r, docs')
          | None => inr (None, docs)
          end
      | errors => inl (ValidationError errors)
      end
  end.

(** *** getAllRecipes *)

Definition listPage (req : query.t) : JS.number :=
  JS.orDefault (JS.parseInt (query.page req)) 1.

Definition listLimit (req : query.t) : JS.number :=
  JS.orDefault (JS.parseInt (query.limit req)) 10.

Definition listSkip (req : query.t) : JS.number :=
  JS.mul (JS.pred (listPage req)) (listLimit req).

Definition listFilter (req : query.t) : filter.t :=
  {| filter.text := None;
     filter.ingredients := None;
     filter.difficulty := JS.given (query.difficulty req);
     filter.tags := JS.splitComma <$> JS.given (query.tags req);
     filter.cookingTime := None;
     filter.servings := None |}.

Definition getAllRecipes (docs : list Recipe) (req : query.t)
  : Response page.t :=
  let page := listPage req in
  let limit := listLimit req in
  let skip := listSkip req in
  let filter := listFilter req in
  match Recipe_find filter CreatedDesc skip limit docs,
        Recipe_countDocuments filter docs with
  | Some recipes, Some total =>
      let totalPages := JS.ceilDiv (Z.of_nat total) limit in
      Success 200
        {| page.count := length recipes;
           page.searchQuery := None;
           page.pagination :=
             {| pagination.currentPage := page;
                pagination.totalPages := totalPages;
                pagination.limit := limit;
                pagination.total := total;
                pagination.hasNext := JS.lt page totalPages;
                pagination.hasPrev := JS.lt (JS.Num 1) page |};
           page.data := recipes |}
  | _, _ => Failure 500 "Failed to fetch recipes" []
  end.

(** *** createRecipe and updateRecipe *)

(** The callback of [.filter]: [x && x.trim().length > 0]. A truthy value
    that is not a string has no [trim] ([None]: a [TypeError] is thrown). *)
Definition keeps (x : JS.json) : option bool :=
  match x with
  | JS.JStr s => Some (JS.truthy s && JS.truthy (JS.trim s))
  | _ => if JS.truthyJson x then None else Some false
  end.

Fixpoint filterKept (l : list JS.json) : option (list string) :=
  match l with
  | [] => Some []
  | x :: l' =>
      match keeps x, filterKept l' with
      | Some k, Some r =>
          Some (match x with
                | JS.JStr s => if k then s :: r else r
                | _ => r
                end)
      | _, _ => None
      end
  end.

(** [if (v) { v = v.filter(...).map(f) }] on a key of the body. A value
    that is present and falsy is left alone and counts as absent below;
    validation lets no such value through. *)
Definition cleaned (f : string -> string) (v : option JS.json)
  : option (option (list string)) :=
  match v with
  | Some (JS.JArr l) => (fun r => Some (map f r)) <$> filterKept l
  | Some x => if JS.truthyJson x then None else Some None
  | None => Some None
  end.

Definition cleanBody (b : body.t) : option fields.t :=
  match cleaned JS.trim (body.ingredients b),
        cleaned (fun tag => JS.toLowerCase (JS.trim tag)) (body.tags b) with
  | Some ingredients, Some tags =>
      Some {| fields.title := body.title b;
              fields.ingredients := ingredients;
              fields.instructions := body.instructions b;
              fields.cookingTime := body.cookingTime b;
              fields.servings := body.servings b;
              fields.difficulty := body.difficulty b;
              fields.tags := tags |}
  | _, _ => None
  end.

(** The handler answers and leaves the collection in its new state. *)
Definition createRecipe (now : Z) (oid : ObjectId) (docs : list Recipe)
    (b : body.t) : Response Recipe * list Recipe :=
  match validation.validateRecipe b with
  | [] =>
      match cleanBody (validation.sanitized b) with
      | Some f =>
          match Recipe_create now oid f with
          | inr recipe => (Success 201 recipe, docs ++ [recipe])
          | inl errors => (Failure 400 "Recipe validation failed" errors, docs)
          end
      | None => (Failure 500 "Failed to create recipe" [], docs)
      end
  | errors => (Failure 400 "Validation failed" errors, docs)
  end.

Definition updateRecipe (now : Z) (docs : list Recipe) (id : string)
    (b : body.t) : Response Recipe * list Recipe :=
  match validation.validateRecipe b with
  | [] =>
      match cleanBody (validation.sanitized b) with
      | Some f =>
          match Recipe_findByIdAndUpdate id f now docs with
          | inr (Some recipe, docs') => (Success 200 recipe, docs')
          | inr (None, _) => (Failure 404 "Recipe not found" [], docs)
          | inl CastError => (Failure 400 "Invalid recipe ID format" [], docs)
          | inl (ValidationError errors) =>
              (Failure 400 "Recipe validation failed" errors, docs)
          end
      | None => (Failure 500 "Failed to update recipe" [], docs)
      end
  | errors => (Failure 400 "Validation failed" errors, docs)
  end.

(** *** searchRecipes *)

(** [page] and [limit] are destructured with the defaults [1] and [10],
    which only replace an absent parameter; a parameter that is present
    stays the string it is and is converted where it is used. *)
Definition toNumberOr (d : Z) (p : option string) : option JS.number :=
  match p with
  | Some s => JS.toNumber s
  | None => Some (JS.Num d)
  end.

Definition parseIntOr (d : Z) (p : option string) : JS.number :=
  match p with
  | Some s => JS.parseIntStr s
  | None => JS.Num d
  end.


(** [if (p && !isNaN(p)) { ... parseInt(p) }] *)
Definition numericBound (p : option string) : option JS.number :=
  match JS.given p with
  | Some s => if JS.isNaN s then None else Some (JS.parseIntStr s)
  | None => None
  end.

Definition searchFilter (req : query.t) : filter.t :=
  {| filter.text := JS.given (query.q req);
     filter.ingredients := JS.given (query.ingredient req);
     filter.difficulty :=
       match JS.given (query.difficulty req) with
       | Some d =>
           if validation.isIn validation.difficulties d then Some d else None
       | None => None
       end;
     filter.tags :=
       (fun tags => map (fun tag => JS.toLowerCase (JS.trim tag))
                      (JS.splitComma tags))
       <$> JS.given (query.tags req);
     filter.cookingTime := numericBound (query.cookingTimeMax req);
     filter.servings := numericBound (query.servingsMin req) |}.

Definition sortOptions (req : query.t) : SortOptions :=
  match JS.given (query.q req) with
  | Some _ => TextScoreThenCreatedDesc
  | None => CreatedDesc
  end.

(** The [searchQuery] block of the response: [p || null] of each raw
    parameter. *)
Definition searchEcho (req : query.t) : searchQuery.t :=
  {| searchQuery.textSearch := JS.given (query.q req);
     searchQuery.ingredient := JS.given (query.ingredient req);
     searchQuery.difficulty := JS.given (query.difficulty req);
     searchQuery.tags := JS.given (query.tags req);
     searchQuery.cookingTimeMax := JS.given (query.cookingTimeMax req);
     searchQuery.servingsMin := JS.given (query.servingsMin req) |}.

(** [None] when [page] or [limit] is a numeric literal whose value the
    model of numbers does not represent. *)
Definition searchRecipes (docs : list Recipe) (req : query.t)
  : option (Response page.t) :=
  match toNumberOr 1 (query.page req), toNumberOr 10 (query.limit req) with
  | Some page, Some limit =>
      let skip := JS.mul (JS.pred page) limit in
      let query := searchFilter req in
      Some
        match Recipe_find query (sortOptions req) skip
                (parseIntOr 10 (query.limit req)) docs,
              Recipe_countDocuments query docs with
        | Some recipes, Some total =>
            let totalPages := JS.ceilDiv (Z.of_nat total) limit in
            Success 200
              {| page.count := length recipes;
                 page.searchQuery := Some (searchEcho req);
                 page.pagination :=
                   {| pagination.currentPage := parseIntOr 1 (query.page req);
                      pagination.totalPages := totalPages;
                      pagination.limit := parseIntOr 10 (query.limit req);
                      pagination.total := total;
                      pagination.hasNext := JS.lt page totalPages;
                      pagination.hasPrev := JS.lt (JS.Num 1) page |};
                 page.data := recipes |}
        | _, _ => Failure 500 "Failed to search recipes" []
        end
  | _, _ => None
  end.

(** *** getRecipeStats *)

(** [$group: { _id: null, ... }] then [$project]: no row for an empty
    collection, one row otherwise. *)
Definition overviewRows (docs : list Recipe) : list stats.Overview :=
  match docs with
  | [] => []
  | _ =>
      [{| stats.totalRecipes := length docs;
          stats.avgCookingTime := round1 (avg (map cookingTime docs));
          stats.avgServings := round1 (avg (map servings docs));
          stats.difficulties := Some (map difficulty docs) |}]
  end.

(** [$group] by difficulty, [$sort: { _id: 1 }] *)
Definition difficultyStats (docs : list Recipe) : list (string * nat) :=
  sortBy (fun a b => String.leb (fst a) (fst b))
    (groupCount (map difficulty docs)).

(** [$unwind: '$tags'], [$group] by tag, [$sort: { count: -1 }],
    [$limit: 10] *)
Definition tagStats (docs : list Recipe) : list (string * nat) :=
  take 10
    (sortBy (fun a b => (snd b <=? snd a)%nat)
       (groupCount (flat_map tags docs))).

Definition getRecipeStats (docs : list Recipe) : Response stats.t :=
  Success 200
    {| stats.overview :=
         match overviewRows docs with
         | row :: _ => row
         | [] =>
             {| stats.totalRecipes := 0;
                stats.avgCookingTime := Some (Qmake 0 1);
                stats.avgServings := Some (Qmake 0 1);
                stats.difficulties := None |}
         end;
       stats.difficultyBreakdown :=
         foldl (fun (acc : gmap string nat) item => <[fst item := snd item]> acc)
           ∅ (difficultyStats docs);
       stats.topTags :=
         map (fun tag => {| stats.name := fst tag; stats.count := snd tag |})
           (tagStats docs) |}.

(** *** getRecipe and deleteRecipe *)

(** [Recipe.findById(id)]: [None] when the identifier does not cast, else
    the first document that bears it, if any. *)
Definition Recipe_findById (id : string) (docs : list Recipe)
  : option (option Recipe) :=
  match castObjectId id with
  | Some oid => Some (List.find (fun r => String.eqb (_id r) oid) docs)
  | None => None
  end.

Definition getRecipe (docs : list Recipe) (id : string) : Response Recipe :=
  match Recipe_findById id docs with
  | Some (Some recipe) => Success 200 recipe
  | Some None => Failure 404 "Recipe not found" []
  | None => Failure 400 "Invalid recipe ID format" []
  end.

(** The first document with identifier [oid] is taken out. *)
Fixpoint removeOne (oid : ObjectId) (docs : list Recipe)
  : option (Recipe * list Recipe) :=
  match docs with
  | [] => None
  | r :: rest =>
      if String.eqb (_id r) oid then Some (r, rest)
      else
        match removeOne oid rest with
        | Some (r', rest') => Some (r', r :: rest')
        | None => None
        end
  end.

(** [Recipe.findByIdAndDelete(id)]: the deleted document and the collection
    without it, or [null] and the collection as it was; [None] when the
    identifier does not cast. *)
Definition Recipe_findByIdAndDelete (id : string) (docs : list Recipe)
  : option (option Recipe * list Recipe) :=
  match castObjectId id with
  | Some oid =>
      match removeOne oid docs with
      | Some (r, docs') => Some (Some r, docs')
      | None => Some (None, docs)
      end
  | None => None
  end.

Definition deleteRecipe (docs : list Recipe) (id : string)
  : Response deleted.t * list Recipe :=
  match Recipe_findByIdAndDelete id docs with
  | Some (Some recipe, docs') =>
      (Success 200 {| deleted.id := _id recipe; deleted.title := title recipe |},
       docs')
  | Some (None, _) => (Failure 404 "Recipe not found" [], docs)
  | None => (Failure 400 "Invalid recipe ID format" [], docs)
  end.

(** *** routes/recipes.js *)

(** The router, mounted at [/api/recipes]: its layers in the order of the
    file. A layer whose path matches and whose method does not is passed
    over; a request that no layer takes goes to the 404 handler of the
    application. The controller also exports [getRecipeStats], which the
    router does not import. *)
Definition route (m : Method) (path : string) : Route :=
  match m, segmentOf path with
  | GET, Some (Some s) =>
      if String.eqb (JS.toLowerCase s) "search" then SearchRecipes
      else GetRecipe s
  | GET, Some None => GetAllRecipes
  | POST, Some None => CreateRecipe
  | PUT, Some (Some s) => UpdateRecipe s
  | DELETE, Some (Some s) => DeleteRecipe s
  | _, _ => NoRoute
  end.

(** A request to the router and what it is answered, with the collection as
    the handler leaves it. *)
Definition recipes (now : Z) (oid : ObjectId) (docs : list Recipe)
    (m : Method) (path : string) (q : query.t) (b : body.t)
  : Answer * list Recipe :=
  match route m path with
  | SearchRecipes => (Page (searchRecipes docs q), docs)
  | GetAllRecipes => (Page (Some (getAllRecipes docs q)), docs)
  | CreateRecipe =>
      let '(res, docs') := createRecipe now oid docs b in (One res, docs')
  | GetRecipe id => (One (getRecipe docs id), docs)
  | UpdateRecipe id =>
      let '(res, docs') := updateRecipe now docs id b in (One res, docs')
  | DeleteRecipe id =>
      let '(res, docs') := deleteRecipe docs id in (Gone res, docs')
  | NoRoute => (Unrouted, docs)
  end.


(** *** What a request matches *)

(** The documents that match a list request, in the order of the response,
    before the window is cut. *)
Definition listMatches (docs : list Recipe) (req : query.t) : list Recipe :=
  sortBy (before (listFilter req) CreatedDesc)
    (List.filter (matches (listFilter req)) docs).

(** Their number: the [total] of the response. *)
Definition listTotal (docs : list Recipe) (req : query.t) : nat :=
  length (List.filter (matches (listFilter req)) docs).

(** The same for a search request. *)
Definition searchMatches (docs : list Recipe) (req : query.t) : list Recipe :=
  sortBy (before (searchFilter req) (sortOptions req))
    (List.filter (matches (searchFilter req)) docs).

End Controller.

(** ** Properties *)


(** *** Strings *)

Lemma lowerChar_whiteSpace c :
  JS.isWhiteSpace (JS.lowerChar c) = JS.isWhiteSpace c.
Proof. destruct c as [[] [] [] [] [] [] [] []]; reflexivity. Qed.

Lemma trimStart_trimmedStart s : trimmedStart (JS.trimStart s).
Proof.
  induction s as [|c s IH]; simpl; [exact I|].
  destruct (JS.isWhiteSpace c) eqn:E; [exact IH | exact E].
Qed.

Lemma trimStart_fixed s : trimmedStart s -> JS.trimStart s = s.
Proof. destruct s as [|c s]; simpl; [reflexivity|]. intros ->. reflexivity. Qed.

Lemma trimEnd_trimmedStart s : trimmedStart s -> trimmedStart (JS.trimEnd s).
Proof.
  destruct s as [|c s]; simpl; [exact id|]. intros E.
  destruct (JS.trimEnd s); simpl; [rewrite E; exact E | exact E].
Qed.

Lemma trimEnd_idem s : JS.trimEnd (JS.trimEnd s) = JS.trimEnd s.
Proof.
  induction s as [|c s IH]; simpl; [reflexivity|].
  destruct (JS.trimEnd s) as [|d r] eqn:E.
  - destruct (JS.isWhiteSpace c) eqn:W; simpl; [reflexivity|].
    rewrite W. reflexivity.
  - change (JS.trimEnd (String c (String d r))) with
      (match JS.trimEnd (String d r) with
       | EmptyString =>
           if JS.isWhiteSpace c then EmptyString else String c EmptyString
       | x => String c x
       end).
    rewrite IH. reflexivity.
Qed.

Lemma trim_idem s : JS.trim (JS.trim s) = JS.trim s.
Proof.
  unfold JS.trim.
  rewrite (trimStart_fixed (JS.trimEnd (JS.trimStart s))).
  - apply trimEnd_idem.
  - apply trimEnd_trimmedStart, trimStart_trimmedStart.
Qed.

Lemma trimStart_toLowerCase s :
  JS.trimStart (JS.toLowerCase s) = JS.toLowerCase (JS.trimStart s).
Proof.
  induction s as [|c s IH]; simpl; [reflexivity|].
  rewrite lowerChar_whiteSpace.
  destruct (JS.isWhiteSpace c); [exact IH | reflexivity].
Qed.

Lemma trimEnd_toLowerCase s :
  JS.trimEnd (JS.toLowerCase s) = JS.toLowerCase (JS.trimEnd s).
Proof.
  induction s as [|c s IH]; simpl; [reflexivity|].
  rewrite IH, lowerChar_whiteSpace.
  destruct (JS.trimEnd s); simpl; [|reflexivity].
  destruct (JS.isWhiteSpace c); reflexivity.
Qed.

Lemma trim_toLowerCase s :
  JS.trim (JS.toLowerCase s) = JS.toLowerCase (JS.trim s).
Proof.
  unfold JS.trim. rewrite trimStart_toLowerCase. apply trimEnd_toLowerCase.
Qed.

Lemma truthy_true s : JS.truthy s = true <-> s <> EmptyString.
Proof. destruct s; simpl; split; congruence. Qed.

(** *** Validation *)

Lemma failing_nil ok field message :
  validation.failing ok field message = [] <-> ok = true.
Proof. destruct ok; simpl; split; congruence. Qed.

Lemma isLength_spec min max s :
  validation.isLength min max s = true
  <-> (min <= String.length s <= max)%nat.
Proof.
  unfold validation.isLength.
  rewrite andb_true_iff, !Nat.leb_le. reflexivity.
Qed.

Lemma isLength_truthy min max s :
  (0 < min)%nat -> validation.isLength min max s = true -> JS.truthy s = true.
Proof.
  intros Hmin H%isLength_spec. destruct s; simpl in *; [lia | reflexivity].
Qed.

Lemma title_accepts v :
  fst (validation.title v) = []
  <-> validation.isLength 3 100 (JS.trim (default "" v)) = true.
Proof.
  unfold validation.title; simpl. rewrite app_nil, !failing_nil.
  split; [tauto|]. intros H. split; [|exact H].
  apply (isLength_truthy 3 100); [lia | exact H].
Qed.

Lemma instructions_accepts v :
  fst (validation.instructions v) = []
  <-> validation.isLength 10 2000 (JS.trim (default "" v)) = true.
Proof.
  unfold validation.instructions; simpl. rewrite app_nil, !failing_nil.
  split; [tauto|]. intros H. split; [|exact H].
  apply (isLength_truthy 10 2000); [lia | exact H].
Qed.

(** The elements of an accepted array are strings that are not blank. *)
Lemma nonEmptyStrings l :
  forallb validation.nonEmptyString l = true ->
  exists strs, l = map JS.JStr strs
               /\ Forall (fun s => JS.truthy (JS.trim s) = true) strs.
Proof.
  induction l as [|x l IH]; simpl.
  - exists []. split; [reflexivity | constructor].
  - rewrite andb_true_iff. intros [Hx Hl].
    destruct (IH Hl) as (strs & -> & Hall).
    destruct x as [| | |s|]; simpl in Hx; try discriminate.
    exists (s :: strs). split; [reflexivity | constructor; assumption].
Qed.

Lemma ingredients_accepts v :
  validation.ingredients v = [] ->
  exists strs, v = Some (JS.JArr (map JS.JStr strs))
               /\ strs <> []
               /\ Forall (fun s => JS.truthy (JS.trim s) = true) strs.
Proof.
  destruct v as [[| | | |l]|]; simpl; try discriminate.
  rewrite app_nil, !failing_nil. intros [Hlen Hall].
  destruct (nonEmptyStrings l Hall) as (strs & -> & Hstrs).
  exists strs. repeat split; [|exact Hstrs].
  intros ->. simpl in Hlen. discriminate.
Qed.

Lemma positiveInt_accepts field message v :
  validation.positiveInt field message v = [] ->
  forall n, v = Some n -> 1 <= n.
Proof.
  intros H n ->. unfold validation.positiveInt in H.
  apply failing_nil, andb_true_iff in H. destruct H as [H _]. lia.
Qed.

Lemma validateRecipe_accepts b :
  validation.validateRecipe b = [] -> Validated b.
Proof.
  unfold validation.validateRecipe. rewrite !app_nil.
  intros (Ht & Hi & Hn & Hc & Hs & Hd & Hg). split.
  - apply title_accepts, Ht.
  - apply ingredients_accepts, Hi.
  - apply instructions_accepts, Hn.
  - eapply positiveInt_accepts, Hc.
  - eapply positiveInt_accepts, Hs.
  - intros d E. rewrite E in Hd. simpl in Hd. apply failing_nil in Hd. exact Hd.
  - destruct (body.tags b) as [[| | | |l]|]; simpl in Hg; try discriminate;
      [right; eexists; reflexivity | left; reflexivity].
Qed.

(** *** Cleaning and the validators of the schema *)

Lemma trim_empty_truthy s : JS.truthy (JS.trim s) = true -> JS.truthy s = true.
Proof. destruct s; simpl; [discriminate | reflexivity]. Qed.

Lemma filterKept_strings strs :
  Forall (fun s => JS.truthy (JS.trim s) = true) strs ->
  filterKept (map JS.JStr strs) = Some strs.
Proof.
  induction 1 as [|s strs Hs _ IH]; simpl; [reflexivity|].
  rewrite IH, Hs, (trim_empty_truthy s Hs). reflexivity.
Qed.

Lemma cleanBody_validated b strs tags' :
  body.ingredients b = Some (JS.JArr (map JS.JStr strs)) ->
  Forall (fun s => JS.truthy (JS.trim s) = true) strs ->
  cleaned (fun tag => JS.toLowerCase (JS.trim tag)) (body.tags b) = Some tags' ->
  cleanBody (validation.sanitized b) = Some (fieldsOf b strs tags').
Proof.
  intros Hi Hs Ht. unfold cleanBody; simpl.
  rewrite Hi, Ht; simpl. rewrite (filterKept_strings strs Hs). reflexivity.
Qed.

Lemma requiredString_trimmed creating field missing max tooLong min s :
  (0 < min)%nat ->
  validation.isLength min max (JS.trim s) = true ->
  requiredString creating field missing max tooLong (Some (JS.trim s)) = [].
Proof.
  intros Hmin H. unfold requiredString. rewrite trim_idem.
  rewrite (isLength_truthy min max _ Hmin H). apply isLength_spec in H.
  destruct (Nat.leb_spec (String.length (JS.trim s)) max); [reflexivity | lia].
Qed.

Lemma positive_accepts field message v :
  (forall n, v = Some n -> 1 <= n) -> positive field message v = [].
Proof.
  intros H. destruct v as [n|]; simpl; [|reflexivity].
  destruct (Z.leb_spec 1 n); [reflexivity|]. specialize (H n eq_refl). lia.
Qed.

Lemma ingredients_schema strs :
  Forall (fun s => JS.truthy (JS.trim s) = true) strs ->
  flat_map
    (fun s => validation.failing (JS.truthy (JS.trim s)) "ingredients"
                "At least one ingredient is required")
    (map JS.trim strs) = [].
Proof.
  induction 1 as [|s strs Hs _ IH]; simpl; [reflexivity|].
  rewrite trim_idem, Hs, IH. reflexivity.
Qed.

(** Once [validateRecipe] has accepted a body, the validators of the schema
    have nothing left to reject. *)
Lemma schemaErrors_validated creating b strs tags' :
  Validated b ->
  Forall (fun s => JS.truthy (JS.trim s) = true) strs ->
  schemaErrors creating (fieldsOf b strs tags') = [].
Proof.
  intros [Ht _ Hn Hc Hs Hd _] Hstrs. unfold schemaErrors, fieldsOf.
  cbn [fields.title fields.ingredients fields.instructions fields.cookingTime
       fields.servings fields.difficulty].
  change (default [] (Some (map JS.trim strs))) with (map JS.trim strs).
  rewrite (requiredString_trimmed _ _ _ _ _ 3%nat _ ltac:(lia) Ht).
  rewrite (requiredString_trimmed _ _ _ _ _ 10%nat _ ltac:(lia) Hn).
  rewrite (ingredients_schema strs Hstrs).
  rewrite (positive_accepts _ _ _ Hc), (positive_accepts _ _ _ Hs).
  destruct (body.difficulty b) as [d|]; [|reflexivity].
  rewrite (Hd d eq_refl). reflexivity.
Qed.

Lemma updateOne_first (g : Recipe -> Recipe) pre r post :
  Forall (fun x => _id x <> _id r) pre ->
  updateOne (_id r) g (pre ++ r :: post) = Some (g r, pre ++ g r :: post).
Proof.
  induction 1 as [|x pre Hx _ IH]; simpl.
  - rewrite String.eqb_refl. reflexivity.
  - destruct (String.eqb_spec (_id x) (_id r)); [contradiction|].
    rewrite IH. reflexivity.
Qed.

(** The tags of a body are stored trimmed and in lower case as the handler
    left them: the setter of the schema has nothing to add. *)
Lemma cleaned_tags_trimmed v tags' :
  cleaned (fun tag => JS.toLowerCase (JS.trim tag)) v = Some (Some tags') ->
  map JS.trim tags' = tags'.
Proof.
  destruct v as [x|]; [|discriminate].
  destruct x as [|c|n|s|l]; unfold cleaned;
    try (destruct (JS.truthyJson _); discriminate).
  destruct (filterKept l) as [kept|]; simpl; [|discriminate].
  intros [= <-]. rewrite map_map. apply map_ext. intros s.
  rewrite trim_toLowerCase, trim_idem. reflexivity.
Qed.


(** *** updateRecipe *)

Section Update.
Context (castObjectId : string -> option ObjectId).


End Update.

(** *** createRecipe *)


(** *** The title *)

Lemma filter_failing_title ok message :
  List.filter onTitle (validation.failing ok "title" message)
  = validation.failing ok "title" message.
Proof. destruct ok; reflexivity. Qed.

Lemma filter_failing_other ok field message :
  String.eqb field "title" = false ->
  List.filter onTitle (validation.failing ok field message) = [].
Proof.
  intros H. destruct ok; simpl; [reflexivity|].
  unfold onTitle; simpl. rewrite H. reflexivity.
Qed.

Lemma filter_positiveInt field message v :
  String.eqb field "title" = false ->
  List.filter onTitle (validation.positiveInt field message v) = [].
Proof. intros H. destruct v; [apply filter_failing_other, H | reflexivity]. Qed.

(** The errors that [validateRecipe] reports on the title are those of the
    title chain. *)
Lemma validateRecipe_onTitle b :
  List.filter onTitle (validation.validateRecipe b)
  = fst (validation.title (body.title b)).
Proof.
  unfold validation.validateRecipe. rewrite !List.filter_app.
  assert (List.filter onTitle (validation.ingredients (body.ingredients b)) = [])
    as ->.
  { destruct (body.ingredients b) as [[| | | |l]|]; try reflexivity.
    unfold validation.ingredients. rewrite List.filter_app.
    rewrite !filter_failing_other; reflexivity. }
  assert (List.filter onTitle (fst (validation.instructions (body.instructions b)))
          = []) as ->.
  { unfold validation.instructions; simpl. rewrite List.filter_app.
    rewrite !filter_failing_other; reflexivity. }
  rewrite !filter_positiveInt by reflexivity.
  assert (List.filter onTitle (validation.difficulty (body.difficulty b)) = [])
    as ->.
  { destruct (body.difficulty b); [apply filter_failing_other|]; reflexivity. }
  assert (List.filter onTitle (validation.tags (body.tags b)) = []) as ->.
  { destruct (body.tags b) as [[| | | |l]|]; reflexivity. }
  rewrite !app_nil_r. unfold validation.title; simpl.
  rewrite List.filter_app, !filter_failing_title. reflexivity.
Qed.

Lemma cleanBody_fieldsOf b f :
  Validated b ->
  cleanBody (validation.sanitized b) = Some f ->
  exists strs tags',
    Forall (fun s => JS.truthy (JS.trim s) = true) strs
    /\ f = fieldsOf b strs tags'.
Proof.
  intros V Hf. destruct (valid_ingredients b V) as (strs & Hi & _ & Hstrs).
  destruct (cleaned (fun tag => JS.toLowerCase (JS.trim tag)) (body.tags b))
    as [tags'|] eqn:Htags.
  - rewrite (cleanBody_validated b strs tags' Hi Hstrs Htags) in Hf.
    injection Hf as <-. exists strs, tags'. split; [exact Hstrs | reflexivity].
  - unfold cleanBody in Hf. simpl in Hf. rewrite Htags in Hf.
    destruct (cleaned JS.trim (body.ingredients b)); discriminate.
Qed.

Lemma createRecipe_onTitle now oid docs b :
  errorsOn "title" (fst (createRecipe now oid docs b))
  = fst (validation.title (body.title b)).
Proof.
  rewrite <- validateRecipe_onTitle. unfold createRecipe.
  destruct (validation.validateRecipe b) as [|e errors] eqn:Hv; [|reflexivity].
  pose proof (validateRecipe_accepts b Hv) as V.
  destruct (cleanBody (validation.sanitized b)) as [f|] eqn:Hf; [|reflexivity].
  destruct (cleanBody_fieldsOf b f V Hf) as (strs & tags' & Hstrs & ->).
  unfold Recipe_create.
  rewrite (schemaErrors_validated true b strs tags' V Hstrs). reflexivity.
Qed.

Section Title.
Context (castObjectId : string -> option ObjectId).

Lemma updateRecipe_onTitle now docs id b :
  errorsOn "title" (fst (updateRecipe castObjectId now docs id b))
  = fst (validation.title (body.title b)).
Proof.
  rewrite <- validateRecipe_onTitle. unfold updateRecipe.
  destruct (validation.validateRecipe b) as [|e errors] eqn:Hv; [|reflexivity].
  pose proof (validateRecipe_accepts b Hv) as V.
  destruct (cleanBody (validation.sanitized b)) as [f|] eqn:Hf; [|reflexivity].
  destruct (cleanBody_fieldsOf b f V Hf) as (strs & tags' & Hstrs & ->).
  unfold Recipe_findByIdAndUpdate.
  destruct (castObjectId id) as [oid|]; [|reflexivity].
  rewrite (schemaErrors_validated false b strs tags' V Hstrs).
  destruct (updateOne oid _ docs) as [[r docs']|]; reflexivity.
Qed.

(** C7, amended. A create or update request is accepted with respect to
    the title field iff the trimmed title has between 3 and 100 characters:
    the response carries no error on [title] exactly in that case. A title
    of 1 or 2 characters is answered with the error "Title must be between
    3 and 100 characters". *)
Theorem title_accepted_iff_3_to_100 now oid docs id b :
  let n := String.length (JS.trim (default "" (body.title b))) in
  (errorsOn "title" (fst (createRecipe now oid docs b)) = []
   <-> (3 <= n <= 100)%nat)
  /\ (errorsOn "title" (fst (updateRecipe castObjectId now docs id b)) = []
      <-> (3 <= n <= 100)%nat)
  /\ ((1 <= n <= 2)%nat ->
      errorsOn "title" (fst (createRecipe now oid docs b))
      = [{| path := "title";
            msg := "Title must be between 3 and 100 characters" |}]
      /\ errorsOn "title" (fst (updateRecipe castObjectId now docs id b))
         = [{| path := "title";
               msg := "Title must be between 3 and 100 characters" |}]).
Proof.
  intros n. rewrite createRecipe_onTitle, updateRecipe_onTitle.
  rewrite title_accepts, isLength_spec. fold n.
  split; [reflexivity|]. split; [reflexivity|].
  intros Hn. unfold validation.title; simpl. fold n.
  assert (JS.truthy (JS.trim (default "" (body.title b))) = true) as ->.
  { subst n. destruct (JS.trim (default "" (body.title b)));
      simpl in *; [lia | reflexivity]. }
  assert (validation.isLength 3 100 (JS.trim (default "" (body.title b)))
          = false) as ->.
  { apply not_true_is_false. rewrite isLength_spec. fold n. lia. }
  split; reflexivity.
Qed.

End Title.

(** *** Sorting *)

Section SortingFacts.
Context {A : Type} (le : A -> A -> bool).

Lemma insertBy_perm x l : Permutation (x :: l) (insertBy le x l).
Proof.
  induction l as [|y l IH]; simpl; [reflexivity|].
  destruct (le x y); [reflexivity|].
  rewrite perm_swap. apply perm_skip, IH.
Qed.

Lemma sortBy_perm l : Permutation l (sortBy le l).
Proof.
  induction l as [|x l IH]; simpl; [reflexivity|].
  rewrite <- insertBy_perm. apply perm_skip, IH.
Qed.

Hypothesis le_total : forall a b, le a b = true \/ le b a = true.

Lemma insertBy_sorted x l :
  Sorted (fun a b => le a b = true) l ->
  Sorted (fun a b => le a b = true) (insertBy le x l).
Proof.
  induction 1 as [|y l Hl IH Hy]; simpl.
  - repeat constructor.
  - destruct (le x y) eqn:E.
    + repeat constructor; assumption.
    + constructor; [exact IH|].
      destruct (le_total x y) as [Hxy|Hyx]; [congruence|].
      destruct Hy as [|z l Hyz]; simpl.
      * constructor. exact Hyx.
      * destruct (le x z); constructor; assumption.
Qed.

Lemma sortBy_sorted l : Sorted (fun a b => le a b = true) (sortBy le l).
Proof.
  induction l as [|x l IH]; simpl; [constructor|].
  apply insertBy_sorted, IH.
Qed.
End SortingFacts.

Lemma Sorted_take {A} (R : A -> A -> Prop) n l :
  Sorted R l -> Sorted R (take n l).
Proof.
  intros H. revert n. induction H as [|x l Hl IH Hx]; intros [|n]; simpl;
    try constructor.
  - apply IH.
  - destruct Hx as [|y l Hxy]; destruct n; simpl; constructor. exact Hxy.
Qed.

Lemma Sorted_map {A B} (f : A -> B) (R : B -> B -> Prop) l :
  Sorted (fun a b => R (f a) (f b)) l -> Sorted R (map f l).
Proof.
  induction 1 as [|x l Hl IH Hx]; simpl; constructor; [exact IH|].
  destruct Hx; simpl; constructor. assumption.
Qed.

(** *** Grouping *)

Lemma counter_bump q k rows :
  counter q (bump k rows)
  = ((if String.eqb q k then 1 else 0) + counter q rows)%nat.
Proof.
  induction rows as [|[k' n] rows IH]; simpl; [lia|].
  destruct (String.eqb_spec k k') as [->|Hk]; simpl.
  - destruct (String.eqb q k'); lia.
  - rewrite IH. destruct (String.eqb_spec q k') as [->|Hq]; [|reflexivity].
    destruct (String.eqb_spec k' k); [congruence | lia].
Qed.

Lemma bump_keys q k rows :
  In q (map fst (bump k rows)) <-> q = k \/ In q (map fst rows).
Proof.
  induction rows as [|[k' n] rows IH]; simpl.
  - intuition congruence.
  - destruct (String.eqb_spec k k') as [->|Hk]; simpl; [|rewrite IH];
      intuition congruence.
Qed.

Lemma bump_NoDup k rows :
  List.NoDup (map fst rows) -> List.NoDup (map fst (bump k rows)).
Proof.
  induction rows as [|[k' n] rows IH]; simpl; intros H.
  - constructor; [intros [] | constructor].
  - inversion H as [|? ? Hnotin Hrest]; subst.
    destruct (String.eqb_spec k k') as [->|Hk]; simpl.
    + constructor; assumption.
    + constructor; [|apply IH, Hrest].
      rewrite bump_keys. intros [->|Hin]; [congruence | contradiction].
Qed.

Lemma bump_positive k rows :
  Forall (fun row => 1 <= snd row)%nat rows ->
  Forall (fun row => 1 <= snd row)%nat (bump k rows).
Proof.
  induction 1 as [|[k' n] rows Hn Hrows IH]; simpl.
  - repeat constructor.
  - destruct (String.eqb k k'); constructor; simpl in *; try assumption. lia.
Qed.

Lemma counter_In k n rows :
  List.NoDup (map fst rows) -> In (k, n) rows -> counter k rows = n.
Proof.
  induction rows as [|[k' n'] rows IH]; simpl; intros Hnd Hin; [destruct Hin|].
  destruct Hin as [Heq|Hin].
  - injection Heq as -> ->. rewrite String.eqb_refl. reflexivity.
  - inversion Hnd as [|? ? Hnotin Hrest]; subst.
    destruct (String.eqb_spec k k') as [->|_]; [|apply IH; assumption].
    exfalso. apply Hnotin. apply (in_map fst) in Hin. exact Hin.
Qed.

Lemma In_counter k rows :
  (1 <= counter k rows)%nat -> In (k, counter k rows) rows.
Proof.
  induction rows as [|[k' n] rows IH]; simpl; [lia|].
  destruct (String.eqb_spec k k') as [->|_]; [left; reflexivity|].
  intros H. right. apply IH, H.
Qed.

Lemma fold_bump keys :
  forall rows q,
    counter q (fold_left (fun acc k => bump k acc) keys rows)
    = (length (List.filter (String.eqb q) keys) + counter q rows)%nat.
Proof.
  induction keys as [|k keys IH]; intros rows q; simpl; [reflexivity|].
  rewrite IH, counter_bump. destruct (String.eqb q k); simpl; lia.
Qed.

Lemma fold_bump_invariant keys :
  forall rows,
    List.NoDup (map fst rows) ->
    Forall (fun row => 1 <= snd row)%nat rows ->
    List.NoDup (map fst (fold_left (fun acc k => bump k acc) keys rows))
    /\ Forall (fun row => 1 <= snd row)%nat
         (fold_left (fun acc k => bump k acc) keys rows).
Proof.
  induction keys as [|k keys IH]; intros rows Hnd Hpos; simpl;
    [split; assumption|].
  apply IH; [apply bump_NoDup, Hnd | apply bump_positive, Hpos].
Qed.

(** [$group] with [$sum: 1]: one row per distinct key, and the counter of
    a row is the number of occurrences of its key. *)
Lemma groupCount_spec keys :
  List.NoDup (map fst (groupCount keys))
  /\ (forall k n, In (k, n) (groupCount keys) ->
                  n = length (List.filter (String.eqb k) keys)
                  /\ (1 <= n)%nat)
  /\ (forall k, (1 <= length (List.filter (String.eqb k) keys))%nat ->
                In (k, length (List.filter (String.eqb k) keys))
                  (groupCount keys)).
Proof.
  unfold groupCount.
  destruct (fold_bump_invariant keys [] (List.NoDup_nil _) (List.Forall_nil _))
    as [Hnd Hpos].
  split; [exact Hnd|]. split.
  - intros k n Hin. split.
    + rewrite <- (counter_In k n _ Hnd Hin), fold_bump. simpl. lia.
    + rewrite List.Forall_forall in Hpos. apply (Hpos (k, n) Hin).
  - intros k Hk. pose proof (fold_bump keys [] k) as E. simpl in E.
    rewrite Nat.add_0_r in E. rewrite <- E. apply In_counter. rewrite E.
    exact Hk.
Qed.

(** *** getRecipeStats *)

Lemma In_take {A} (x : A) n l : In x (take n l) -> In x l.
Proof.
  revert n. induction l as [|y l IH]; intros [|n]; simpl; try tauto.
  intros [->|H]; [left; reflexivity | right; apply (IH n H)].
Qed.

Lemma NoDup_take {A} n (l : list A) : List.NoDup l -> List.NoDup (take n l).
Proof.
  intros H. revert n. induction H as [|x l Hx Hl IH]; intros [|n]; simpl;
    try constructor.
  - intros Hin. apply Hx, (In_take _ _ _ Hin).
  - apply IH.
Qed.

Lemma Sorted_weaken {A} (R S : A -> A -> Prop) l :
  (forall a b, R a b -> S a b) -> Sorted R l -> Sorted S l.
Proof.
  intros HRS. induction 1 as [|x l Hl IH Hx]; constructor; [exact IH|].
  destruct Hx; constructor. apply HRS. assumption.
Qed.

Lemma StronglySorted_app {A} (R : A -> A -> Prop) l1 l2 :
  StronglySorted R (l1 ++ l2) ->
  forall a b, In a l1 -> In b l2 -> R a b.
Proof.
  induction l1 as [|x l1 IH]; simpl; intros H a b Ha Hb; [destruct Ha|].
  inversion H as [|? ? Hrest Hall]; subst. destruct Ha as [->|Ha].
  - rewrite List.Forall_forall in Hall. apply Hall, in_or_app. right. exact Hb.
  - apply (IH Hrest a b Ha Hb).
Qed.

(** The rows of the tag pipeline before [$limit]. *)
Lemma tagRows_sorted docs :
  StronglySorted (fun a b : string * nat => (snd b <= snd a)%nat)
    (sortBy (fun a b => (snd b <=? snd a)%nat)
       (groupCount (flat_map tags docs))).
Proof.
  apply Sorted_StronglySorted.
  - intros a b c Hab Hbc. lia.
  - eapply Sorted_weaken; [|apply sortBy_sorted].
    + intros a b H. apply Nat.leb_le, H.
    + intros a b. rewrite !Nat.leb_le. lia.
Qed.

(** C8. On an empty collection the statistics report zero recipes, the
    number 0 for both averages, an empty difficulty breakdown and an empty
    list of top tags. *)
Theorem stats_of_empty_collection :
  exists p,
    getRecipeStats [] = Success 200 p
    /\ stats.totalRecipes (stats.overview p) = 0%nat
    /\ stats.avgCookingTime (stats.overview p) = Some (Qmake 0 1)
    /\ stats.avgServings (stats.overview p) = Some (Qmake 0 1)
    /\ stats.difficultyBreakdown p = ∅
    /\ stats.topTags p = [].
Proof. eexists. split; [reflexivity|]. repeat split. Qed.

(** C9. For every collection, the top-tags list has at most 10 entries and
    is sorted non-increasing by count; the count of an entry is the number
    of instances of its tag over all the records, each instance counted on
    its own (a record adds to a counter once per occurrence of the tag in
    its list); no tag is listed twice, and a tag that is left out has no
    more instances than any tag listed. *)
Theorem topTags_counted_capped_sorted docs :
  exists p,
    getRecipeStats docs = Success 200 p
    /\ (length (stats.topTags p) <= 10)%nat
    /\ Sorted (fun a b => (stats.count b <= stats.count a)%nat)
         (stats.topTags p)
    /\ (forall t, In t (stats.topTags p) ->
                  stats.count t = instances (stats.name t) docs
                  /\ (1 <= stats.count t)%nat)
    /\ (forall name r rest,
           instances name (r :: rest)
           = (length (List.filter (String.eqb name) (tags r))
              + instances name rest)%nat)
    /\ List.NoDup (map stats.name (stats.topTags p))
    /\ (forall name,
           (1 <= instances name docs)%nat ->
           In name (map stats.name (stats.topTags p))
           \/ (length (stats.topTags p) = 10%nat
               /\ forall t, In t (stats.topTags p) ->
                            (instances name docs <= stats.count t)%nat)).
Proof.
  eexists. split; [reflexivity|]. cbn [stats.topTags].
  unfold tagStats.
  set (rows := sortBy (fun a b => (snd b <=? snd a)%nat)
                 (groupCount (flat_map tags docs))).
  set (mk := fun tag : string * nat =>
               {| stats.name := fst tag; stats.count := snd tag |}).
  pose proof (tagRows_sorted docs) as Hsorted. fold rows in Hsorted.
  destruct (groupCount_spec (flat_map tags docs)) as (Hnd & Hcount & Hall).
  assert (forall row, In row rows -> In row (groupCount (flat_map tags docs)))
    as Hrows.
  { intros row. apply Permutation_in. symmetry. apply sortBy_perm. }
  split; [|split; [|split; [|split; [|split]]]].
  - rewrite length_map, length_take. lia.
  - apply Sorted_map. apply Sorted_take. apply StronglySorted_Sorted.
    exact Hsorted.
  - intros t Ht. apply in_map_iff in Ht as ([k n] & <- & Hin).
    apply In_take, Hrows, Hcount in Hin. exact Hin.
  - intros name r rest. unfold instances. simpl.
    rewrite List.filter_app, length_app. reflexivity.
  - rewrite map_map. change (map (fun x => stats.name (mk x)) (take 10 rows))
      with (map fst (take 10 rows)).
    rewrite <- firstn_map. apply NoDup_take.
    eapply Permutation_NoDup; [|exact Hnd].
    apply Permutation_map, sortBy_perm.
  - intros name Hname.
    assert (In (name, instances name docs) rows) as Hin.
    { eapply Permutation_in; [apply sortBy_perm|]. apply Hall, Hname. }
    rewrite <- (take_drop 10 rows) in Hin, Hsorted.
    apply in_app_or in Hin as [Hin|Hin].
    + left. rewrite map_map. apply in_map_iff.
      exists (name, instances name docs). split; [reflexivity | exact Hin].
    + right. split.
      * rewrite length_map, length_take.
        destruct (Nat.le_gt_cases (length rows) 10) as [Hle|Hgt]; [|lia].
        rewrite (drop_ge rows 10 Hle) in Hin. destruct Hin.
      * intros t Ht. apply in_map_iff in Ht as (row & <- & Hrow).
        apply (StronglySorted_app _ _ _ Hsorted row _ Hrow Hin).
Qed.

Lemma avg_unset {A} (f : A -> option Z) l :
  Forall (fun x => f x = None) l -> avg (map f l) = None.
Proof.
  intros H. unfold avg.
  assert (omap id (map f l) = []) as ->; [|reflexivity].
  induction H as [|x l Hx _ IH]; simpl; [reflexivity|].
  rewrite Hx. exact IH.
Qed.

(** C10. On a collection that is not empty the overview is the row of the
    aggregation, not the fallback: it counts the records, and an average
    is [null] when its field is set in no record. *)
Theorem averages_null_when_field_unset docs :
  docs <> [] ->
  exists p,
    getRecipeStats docs = Success 200 p
    /\ stats.totalRecipes (stats.overview p) = length docs
    /\ stats.difficulties (stats.overview p) = Some (map difficulty docs)
    /\ (Forall (fun r => cookingTime r = None) docs ->
        stats.avgCookingTime (stats.overview p) = None)
    /\ (Forall (fun r => servings r = None) docs ->
        stats.avgServings (stats.overview p) = None).
Proof.
  intros Hne. eexists. split; [reflexivity|].
  destruct docs as [|r docs]; [congruence|].
  cbn [stats.overview overviewRows stats.totalRecipes stats.difficulties
       stats.avgCookingTime stats.avgServings].
  repeat split.
  - intros H. rewrite (avg_unset cookingTime _ H). reflexivity.
  - intros H. rewrite (avg_unset servings _ H). reflexivity.
Qed.

(** *** Reading a page *)

Lemma parseIntStr_cases s :
  JS.parseIntStr s = JS.NaN \/ exists n, JS.parseIntStr s = JS.Num n.
Proof.
  unfold JS.parseIntStr.
  destruct (JS.signOf (JS.trimStart s)) as [neg body].
  destruct (JS.hexPrefix body) as [rest|];
    match goal with
    | |- context [JS.digits ?r None ?b] =>
        destruct (fst (JS.digits r None b)); eauto
    end.
Qed.

Lemma parseInt_cases p :
  JS.parseInt p = JS.NaN \/ exists n, JS.parseInt p = JS.Num n.
Proof. destruct p as [s|]; [apply parseIntStr_cases | left; reflexivity]. Qed.

(** The fallback [parseInt(p) || d] yields a non-zero integer. *)
Lemma orDefault_parseInt p d :
  d <> 0 ->
  exists n, JS.orDefault (JS.parseInt p) d = JS.Num n /\ n <> 0.
Proof.
  intros Hd. destruct (parseInt_cases p) as [->|[n ->]]; simpl.
  - exists d. split; [reflexivity | exact Hd].
  - destruct n; [exists d | eexists | eexists]; (split; [reflexivity | lia]).
Qed.

Lemma window_In skip limit l l' (x : Recipe) :
  window skip limit l = Some l' -> In x l' -> In x l.
Proof.
  unfold window. destruct skip as [|s|]; try discriminate.
  destruct limit as [|n|]; try discriminate.
  destruct (s <? 0); [discriminate|]. intros [= <-] Hin.
  assert (In x (drop (Z.to_nat s) l)) as Hdrop.
  { destruct (n =? 0); [exact Hin | apply (In_take _ _ _ Hin)]. }
  rewrite <- (take_drop (Z.to_nat s) l). apply in_or_app. right. exact Hdrop.
Qed.

Lemma window_nil skip limit l' :
  window skip limit [] = Some l' -> l' = [].
Proof.
  unfold window. destruct skip as [|s|]; try discriminate.
  destruct limit as [|n|]; try discriminate.
  destruct (s <? 0); [discriminate|]. intros [= <-].
  rewrite drop_nil, take_nil. destruct (n =? 0); reflexivity.
Qed.

Lemma window_natural p l docs :
  1 <= p -> 1 <= l ->
  window (JS.Num ((p - 1) * l)) (JS.Num l) docs
  = Some (take (Z.to_nat l) (drop (Z.to_nat ((p - 1) * l)) docs)).
Proof.
  intros Hp Hl. unfold window.
  destruct (Z.ltb_spec ((p - 1) * l) 0); [nia|].
  destruct (Z.eqb_spec l 0); [lia|].
  rewrite Zabs2Nat.abs_nat_nonneg by lia. reflexivity.
Qed.

Lemma given_truthy d : d <> EmptyString -> JS.given (Some d) = Some d.
Proof. destruct d; [congruence | reflexivity]. Qed.

Lemma searchFilter_drops_difficulty d req :
  validation.isIn validation.difficulties d = false ->
  searchFilter (withDifficulty (Some d) req)
  = searchFilter (withDifficulty None req).
Proof.
  intros Hd. unfold searchFilter, withDifficulty; cbn [query.q query.ingredient
    query.difficulty query.tags query.cookingTimeMax query.servingsMin].
  destruct (JS.given (Some d)) as [d'|] eqn:E; [|reflexivity].
  assert (d' = d) as ->.
  { destruct d; simpl in E; congruence. }
  rewrite Hd. reflexivity.
Qed.

Lemma readsAs_numbers d param n :
  readsAs d param n ->
  toNumberOr d param = Some (JS.Num n) /\ parseIntOr d param = JS.Num n.
Proof.
  destruct param as [s|]; simpl; [tauto|]. intros ->. split; reflexivity.
Qed.

Section Reads.
Context (textScore : string -> Recipe -> option Q)
        (regex : string -> option (string -> bool)).

Lemma castable_listFilter req : castable regex (listFilter req) = true.
Proof. reflexivity. Qed.

(** A successful list response, taken apart. *)
Lemma getAllRecipes_success docs req pg :
  getAllRecipes textScore regex docs req = Success 200 pg ->
  exists recipes,
    window (listSkip req) (listLimit req) (listMatches textScore regex docs req)
    = Some recipes
    /\ pg
       = {| page.count := length recipes;
            page.searchQuery := None;
            page.pagination :=
              {| pagination.currentPage := listPage req;
                 pagination.totalPages :=
                   JS.ceilDiv (Z.of_nat (listTotal textScore regex docs req))
                     (listLimit req);
                 pagination.limit := listLimit req;
                 pagination.total := listTotal textScore regex docs req;
                 pagination.hasNext :=
                   JS.lt (listPage req)
                     (JS.ceilDiv (Z.of_nat (listTotal textScore regex docs req))
                        (listLimit req));
                 pagination.hasPrev := JS.lt (JS.Num 1) (listPage req) |};
            page.data := recipes |}.
Proof.
  unfold getAllRecipes, Recipe_find, Recipe_countDocuments.
  rewrite castable_listFilter.
  destruct (window _ _ _) as [recipes|]; [|discriminate].
  intros [= <-]. exists recipes. split; reflexivity.
Qed.


(** C6, amended. In every list response [hasNext] is [page < totalPages]
    and [hasPrev] is [page > 1], for the effective page, which is never
    zero. When the matching total is 0, [totalPages] is 0, and [hasNext]
    and [hasPrev] are both false exactly when the effective page is 1: a
    page above 1 still reports [hasPrev]. *)
Theorem list_pagination_flags docs req pg :
  getAllRecipes textScore regex docs req = Success 200 pg ->
  exists p t,
    pagination.currentPage (page.pagination pg) = JS.Num p
    /\ p <> 0
    /\ pagination.totalPages (page.pagination pg) = JS.Num t
    /\ pagination.hasNext (page.pagination pg) = (p <? t)
    /\ pagination.hasPrev (page.pagination pg) = (1 <? p)
    /\ (pagination.total (page.pagination pg) = 0%nat ->
        t = 0
        /\ (pagination.hasNext (page.pagination pg) = false
            /\ pagination.hasPrev (page.pagination pg) = false
            <-> p = 1)).
Proof.
  intros Hpg.
  destruct (getAllRecipes_success docs req pg Hpg) as (recipes & _ & ->).
  cbn [page.pagination pagination.currentPage pagination.totalPages
       pagination.hasNext pagination.hasPrev pagination.total].
  destruct (orDefault_parseInt (query.page req) 1 ltac:(lia)) as (p & Hp & Hp0).
  destruct (orDefault_parseInt (query.limit req) 10 ltac:(lia))
    as (l & Hl & Hl0).
  fold (listPage req) in Hp. fold (listLimit req) in Hl. rewrite Hp, Hl.
  set (total := listTotal textScore regex docs req).
  assert (JS.ceilDiv (Z.of_nat total) (JS.Num l)
          = JS.Num (- (- Z.of_nat total / l))) as ->.
  { destruct l; [congruence | reflexivity..]. }
  exists p, (- (- Z.of_nat total / l)).
  repeat (split; [first [reflexivity | assumption]|]).
  intros ->. change (- Z.of_nat 0) with 0. rewrite Z.div_0_l by exact Hl0.
  split; [reflexivity|]. cbn [JS.lt Z.opp].
  rewrite Z.ltb_ge, Z.ltb_ge. lia.
Qed.

(** *** The difficulty clause *)

Lemma matches_difficulty f r d :
  filter.difficulty f = Some d ->
  matches textScore regex f r = true ->
  difficulty r = d.
Proof.
  unfold matches. intros ->. rewrite !andb_true_iff.
  intros (((((_ & _) & H) & _) & _) & _). apply String.eqb_eq, H.
Qed.

Lemma filter_difficulty_nil f d docs :
  filter.difficulty f = Some d ->
  Forall (fun r => difficulty r <> d) docs ->
  List.filter (matches textScore regex f) docs = [].
Proof.
  intros Hf. induction 1 as [|r docs Hr _ IH]; simpl; [reflexivity|].
  destruct (matches textScore regex f r) eqn:E; [|exact IH].
  destruct (Hr (matches_difficulty f r d Hf E)).
Qed.

(** C4, amended. For every difficulty string outside
    [{easy, medium, hard}] the search operation builds the query it builds
    when difficulty is absent, and answers with the same status, count,
    pagination and documents: no clause, no error. The list operation
    applies the same string, when it is not empty, as an equality clause:
    every document it returns carries that difficulty, and when no stored
    record does, the response has no document and a total of 0. (An empty
    difficulty parameter adds no clause in either operation.) *)
Theorem invalid_difficulty_dropped_by_search_applied_by_list docs req d :
  validation.isIn validation.difficulties d = false ->
  searchFilter (withDifficulty (Some d) req)
  = searchFilter (withDifficulty None req)
  /\ withoutEcho
       <$> searchRecipes textScore regex docs (withDifficulty (Some d) req)
     = withoutEcho
         <$> searchRecipes textScore regex docs (withDifficulty None req)
  /\ (d <> EmptyString ->
      filter.difficulty (listFilter (withDifficulty (Some d) req)) = Some d
      /\ (forall pg,
             getAllRecipes textScore regex docs (withDifficulty (Some d) req)
           = Success 200 pg ->
             Forall (fun r => difficulty r = d) (page.data pg))
      /\ (Forall (fun r => difficulty r <> d) docs ->
          forall pg,
            getAllRecipes textScore regex docs (withDifficulty (Some d) req)
           = Success 200 pg ->
            page.data pg = []
            /\ page.count pg = 0%nat
            /\ pagination.total (page.pagination pg) = 0%nat)).
Proof.
  intros Hd. pose proof (searchFilter_drops_difficulty d req Hd) as Hfilter.
  split; [exact Hfilter|]. split.
  - unfold searchRecipes. rewrite Hfilter.
    cbn [withDifficulty query.page query.limit].
    change (sortOptions (withDifficulty (Some d) req))
      with (sortOptions (withDifficulty None req)).
    destruct (toNumberOr 1 (query.page req)) as [page|]; [|reflexivity].
    destruct (toNumberOr 10 (query.limit req)) as [limit|]; [|reflexivity].
    destruct (Recipe_find _ _ _ _ _ _ _) as [recipes|]; [|reflexivity].
    destruct (Recipe_countDocuments _ _ _ _) as [total|]; reflexivity.
  - intros Hne.
    assert (filter.difficulty (listFilter (withDifficulty (Some d) req)) = Some d)
      as Hclause.
    { unfold listFilter, withDifficulty; cbn [filter.difficulty query.difficulty].
      apply given_truthy, Hne. }
    split; [exact Hclause|]. split.
    + intros pg Hpg.
      destruct (getAllRecipes_success _ _ pg Hpg) as (recipes & Hw & ->).
      cbn [page.data]. apply List.Forall_forall. intros r Hr.
      apply (window_In _ _ _ _ r Hw) in Hr. unfold listMatches in Hr.
      apply (Permutation_in r (Permutation_sym (sortBy_perm _ _))) in Hr.
      apply List.filter_In in Hr as [_ Hr].
      apply (matches_difficulty _ r d Hclause Hr).
    + intros Hnone pg Hpg.
      destruct (getAllRecipes_success _ _ pg Hpg) as (recipes & Hw & ->).
      unfold listMatches, listTotal in *.
      rewrite (filter_difficulty_nil _ d docs Hclause Hnone) in *.
      apply window_nil in Hw. subst recipes. repeat split.
Qed.

(** *** The echo of the search parameters *)

(** C3, amended. Every search response echoes each raw search parameter
    as it was received, or [null] when it is absent or empty, whether or
    not its clause was applied: a difficulty outside the enum and a
    non-numeric bound are echoed although their clause was dropped, and
    tags are echoed as the raw comma-separated string. *)
Theorem search_echoes_raw_parameters docs req pg :
  searchRecipes textScore regex docs req = Some (Success 200 pg) ->
  exists e,
    page.searchQuery pg = Some e
    /\ searchQuery.textSearch e = JS.given (query.q req)
    /\ searchQuery.ingredient e = JS.given (query.ingredient req)
    /\ searchQuery.difficulty e = JS.given (query.difficulty req)
    /\ searchQuery.tags e = JS.given (query.tags req)
    /\ searchQuery.cookingTimeMax e = JS.given (query.cookingTimeMax req)
    /\ searchQuery.servingsMin e = JS.given (query.servingsMin req)
    /\ (forall d, query.difficulty req = Some d -> d <> EmptyString ->
                  searchQuery.difficulty e = Some d)
    /\ (forall t, query.tags req = Some t -> t <> EmptyString ->
                  searchQuery.tags e = Some t)
    /\ (forall s, query.cookingTimeMax req = Some s -> s <> EmptyString ->
                  searchQuery.cookingTimeMax e = Some s)
    /\ (forall s, query.servingsMin req = Some s -> s <> EmptyString ->
                  searchQuery.servingsMin e = Some s).
Proof.
  unfold searchRecipes.
  destruct (toNumberOr 1 (query.page req)) as [page|]; [|discriminate].
  destruct (toNumberOr 10 (query.limit req)) as [limit|]; [|discriminate].
  destruct (Recipe_find _ _ _ _ _ _ _) as [recipes|]; [|discriminate].
  destruct (Recipe_countDocuments _ _ _ _) as [total|]; [|discriminate].
  intros [= <-]. exists (searchEcho req).
  cbn [page.searchQuery searchEcho searchQuery.textSearch
       searchQuery.ingredient searchQuery.difficulty searchQuery.tags
       searchQuery.cookingTimeMax searchQuery.servingsMin].
  repeat (split; [reflexivity|]).
  repeat split; intros s -> Hs; apply given_truthy, Hs.
Qed.

End Reads.

(** ** Further properties of the handlers *)

(** *** Every field is validated on its own *)

















Lemma isIn_In l s : validation.isIn l s = true <-> In s l.
Proof.
  unfold validation.isIn. rewrite existsb_exists. split.
  - intros (x & Hx & E). apply String.eqb_eq in E. subst x. exact Hx.
  - intros H. exists s. split; [exact H | apply String.eqb_refl].
Qed.



Section EveryField.
Context (castObjectId : string -> option ObjectId).



End EveryField.


(** *** What create stores *)

Lemma lowerChar_idem c : JS.lowerChar (JS.lowerChar c) = JS.lowerChar c.
Proof. destruct c as [[] [] [] [] [] [] [] []]; reflexivity. Qed.

Lemma toLowerCase_idem s : JS.toLowerCase (JS.toLowerCase s) = JS.toLowerCase s.
Proof.
  induction s as [|c s IH]; simpl; [reflexivity|].
  rewrite lowerChar_idem, IH. reflexivity.
Qed.

Lemma toLowerCase_empty s : JS.toLowerCase s = EmptyString -> s = EmptyString.
Proof. destruct s; [reflexivity | discriminate]. Qed.

Lemma filterKept_kept l kept :
  filterKept l = Some kept ->
  Forall (fun s => JS.truthy (JS.trim s) = true) kept.
Proof.
  revert kept. induction l as [|x l IH]; simpl; intros kept.
  - intros [= <-]. constructor.
  - destruct (keeps x) as [k|] eqn:Hk; [|discriminate].
    destruct (filterKept l) as [r|]; [|discriminate].
    specialize (IH r eq_refl). intros [= <-].
    destruct x as [| | |s|]; try exact IH.
    destruct k; [|exact IH]. constructor; [|exact IH].
    simpl in Hk. injection Hk as Hk. apply andb_true_iff in Hk. apply Hk.
Qed.

Lemma cleaned_tags_normalized v tags' :
  cleaned (fun tag => JS.toLowerCase (JS.trim tag)) v = Some (Some tags') ->
  Forall normalized tags'.
Proof.
  destruct v as [x|]; [|discriminate].
  destruct x as [|c|n|s|l]; unfold cleaned;
    try (destruct (JS.truthyJson _); discriminate).
  destruct (filterKept l) as [kept|] eqn:Hkept; simpl; [|discriminate].
  intros [= <-]. apply filterKept_kept in Hkept.
  induction Hkept as [|s kept Hs _ IH]; simpl; constructor; [|exact IH].
  repeat split.
  - intros E. apply toLowerCase_empty in E. rewrite E in Hs. discriminate.
  - rewrite trim_toLowerCase, trim_idem. reflexivity.
  - apply toLowerCase_idem.
Qed.

Lemma trimmed_strings strs :
  Forall (fun s => JS.truthy (JS.trim s) = true) strs ->
  Forall trimmed (map JS.trim strs).
Proof.
  induction 1 as [|s strs Hs _ IH]; simpl; constructor; [|exact IH].
  split; [apply truthy_true, Hs | apply trim_idem].
Qed.

(** A record made from a validated body is well formed. *)
Lemma newRecipe_well_formed now oid b strs tags' :
  Validated b ->
  strs <> [] ->
  Forall (fun s => JS.truthy (JS.trim s) = true) strs ->
  cleaned (fun tag => JS.toLowerCase (JS.trim tag)) (body.tags b) = Some tags' ->
  WellFormed (newRecipe now oid (fieldsOf b strs tags')).
Proof.
  intros [Ht _ Hn Hc Hs Hd _] Hne Hstrs Htags.
  split; unfold newRecipe, fieldsOf; cbn -[JS.trim].
  - rewrite trim_idem. split; [apply isLength_spec, Ht | apply trim_idem].
  - rewrite map_map. split.
    + destruct strs; [congruence | discriminate].
    + rewrite (map_ext _ JS.trim) by (intros s; apply trim_idem).
      apply trimmed_strings, Hstrs.
  - rewrite trim_idem. split; [apply isLength_spec, Hn | apply trim_idem].
  - exact Hc.
  - exact Hs.
  - destruct (body.difficulty b) as [d|]; simpl.
    + apply (proj1 (isIn_In validation.difficulties d)), Hd. reflexivity.
    + right. left. reflexivity.
  - destruct tags' as [l|]; simpl; [|constructor].
    rewrite (cleaned_tags_trimmed _ _ Htags).
    apply (cleaned_tags_normalized _ _ Htags).
Qed.

(** The three ways a create request ends. *)
Lemma createRecipe_cases now oid docs b :
  (validation.validateRecipe b <> []
   /\ createRecipe now oid docs b
      = (Failure 400 "Validation failed" (validation.validateRecipe b), docs))
  \/ (validation.validateRecipe b = []
      /\ cleaned (fun tag => JS.toLowerCase (JS.trim tag)) (body.tags b) = None
      /\ createRecipe now oid docs b
         = (Failure 500 "Failed to create recipe" [], docs))
  \/ (exists strs tags',
         Validated b
         /\ body.ingredients b = Some (JS.JArr (map JS.JStr strs))
         /\ strs <> []
         /\ Forall (fun s => JS.truthy (JS.trim s) = true) strs
         /\ cleaned (fun tag => JS.toLowerCase (JS.trim tag)) (body.tags b)
            = Some tags'
         /\ createRecipe now oid docs b
            = (Success 201 (newRecipe now oid (fieldsOf b strs tags')),
               docs ++ [newRecipe now oid (fieldsOf b strs tags')])).
Proof.
  unfold createRecipe.
  destruct (validation.validateRecipe b) as [|e errors] eqn:Hv.
  2: { left. split; [discriminate | reflexivity]. }
  right. pose proof (validateRecipe_accepts b Hv) as V.
  destruct (valid_ingredients b V) as (strs & Hi & Hne & Hstrs).
  destruct (cleaned (fun tag => JS.toLowerCase (JS.trim tag)) (body.tags b))
    as [tags'|] eqn:Htags.
  - right. exists strs, tags'.
    rewrite (cleanBody_validated b strs tags' Hi Hstrs Htags).
    unfold Recipe_create.
    rewrite (schemaErrors_validated true b strs tags' V Hstrs).
    exact (conj V (conj Hi (conj Hne (conj Hstrs (conj eq_refl eq_refl))))).
  - left. split; [reflexivity|]. split; [reflexivity|]. unfold cleanBody. simpl. rewrite Htags.
    destruct (cleaned JS.trim (body.ingredients b)); reflexivity.
Qed.


(** X3. The record that a successful create stores is well formed: its
    title and instructions are trimmed and within their bounds, its
    ingredients are a non-empty list of trimmed, non-empty strings, its
    cooking time and servings are at least 1 when set, its difficulty is in
    the enum, and its tags are trimmed, non-empty and in lower case. Its
    cooking time and servings are those of the body, unset when the body
    has none, and it takes the defaults of the schema: difficulty [medium]
    and no tags when the body has none. *)
Theorem create_stores_a_well_formed_record now oid docs b r docs' :
  createRecipe now oid docs b = (Success 201 r, docs') ->
  WellFormed r
  /\ cookingTime r = body.cookingTime b
  /\ servings r = body.servings b
  /\ difficulty r = default "medium" (body.difficulty b)
  /\ (body.tags b = None -> tags r = []).
Proof.
  destruct (createRecipe_cases now oid docs b)
    as [[_ ->] | [(_ & _ & ->)
                 | (strs & tags' & V & _ & Hne & Hstrs & Htags & ->)]];
    try discriminate.
  intros [= <- _].
  split; [apply (newRecipe_well_formed now oid b strs tags' V Hne Hstrs Htags)|].
  repeat split. intros E. rewrite E in Htags. injection Htags as <-.
  reflexivity.
Qed.

(** X4. The elements of tags are not validated: a body that passes
    validation and whose tags hold a truthy value that is not a string (a
    number, [true], a nested array) makes the handler throw while it cleans
    the tags; create answers 500 and stores nothing. *)
Theorem foreign_tag_fails_create now oid docs b l :
  validation.validateRecipe b = [] ->
  body.tags b = Some (JS.JArr l) ->
  hasForeignElement l ->
  createRecipe now oid docs b
  = (Failure 500 "Failed to create recipe" [], docs).
Proof.
  intros Hv Ht (x & Hin & Htruthy & Hnot).
  destruct (createRecipe_cases now oid docs b)
    as [[Hne _] | [(_ & _ & ->) | (strs & tags' & _ & _ & _ & _ & Htags & _)]];
    [congruence | reflexivity |].
  exfalso. rewrite Ht in Htags. unfold cleaned in Htags.
  assert (filterKept l = None) as E.
  { clear Htags Ht. induction l as [|y l IH]; [destruct Hin|].
    simpl. destruct Hin as [-> | Hin].
    - assert (keeps x = None) as ->; [|reflexivity].
      destruct x as [| | |s|]; simpl in *;
        try rewrite Htruthy; try reflexivity; try discriminate.
      destruct (Hnot s eq_refl).
    - rewrite (IH Hin). destruct (keeps y); reflexivity. }
  rewrite E in Htags. discriminate.
Qed.


(** *** Records by identifier *)

Lemma byId_split oid docs r :
  byId oid docs = Some r ->
  exists pre post,
    docs = pre ++ r :: post
    /\ Forall (fun x => _id x <> oid) pre
    /\ _id r = oid.
Proof.
  unfold byId. induction docs as [|x docs IH]; simpl; [discriminate|].
  destruct (String.eqb_spec (_id x) oid) as [E|E].
  - intros [= <-]. exists [], docs. repeat split; [constructor | exact E].
  - intros H. destruct (IH H) as (pre & post & -> & Hpre & Hid).
    exists (x :: pre), post. repeat split; [constructor; assumption | exact Hid].
Qed.

Lemma byId_None oid docs :
  byId oid docs = None -> Forall (fun x => _id x <> oid) docs.
Proof.
  unfold byId. induction docs as [|x docs IH]; simpl; [constructor|].
  destruct (String.eqb_spec (_id x) oid) as [E|E]; [discriminate|].
  intros H. constructor; [exact E | exact (IH H)].
Qed.

Lemma byId_absent oid docs :
  Forall (fun x => _id x <> oid) docs -> byId oid docs = None.
Proof.
  unfold byId. induction 1 as [|x docs Hx _ IH]; simpl; [reflexivity|].
  destruct (String.eqb_spec (_id x) oid); [contradiction | exact IH].
Qed.

Lemma byId_first pre r post :
  Forall (fun x => _id x <> _id r) pre ->
  byId (_id r) (pre ++ r :: post) = Some r.
Proof.
  unfold byId. induction 1 as [|x pre Hx _ IH]; simpl.
  - rewrite String.eqb_refl. reflexivity.
  - destruct (String.eqb_spec (_id x) (_id r)); [contradiction | exact IH].
Qed.

Lemma updateOne_None oid g docs :
  Forall (fun x => _id x <> oid) docs -> updateOne oid g docs = None.
Proof.
  induction 1 as [|x docs Hx _ IH]; simpl; [reflexivity|].
  destruct (String.eqb_spec (_id x) oid); [contradiction|].
  rewrite IH. reflexivity.
Qed.

Lemma removeOne_first pre r post :
  Forall (fun x => _id x <> _id r) pre ->
  removeOne (_id r) (pre ++ r :: post) = Some (r, pre ++ post).
Proof.
  induction 1 as [|x pre Hx _ IH]; simpl.
  - rewrite String.eqb_refl. reflexivity.
  - destruct (String.eqb_spec (_id x) (_id r)); [contradiction|].
    rewrite IH. reflexivity.
Qed.

Lemma removeOne_None oid docs :
  Forall (fun x => _id x <> oid) docs -> removeOne oid docs = None.
Proof.
  induction 1 as [|x docs Hx _ IH]; simpl; [reflexivity|].
  destruct (String.eqb_spec (_id x) oid); [contradiction|].
  rewrite IH. reflexivity.
Qed.

Lemma absent_not_In oid docs :
  Forall (fun x => _id x <> oid) docs <-> ~ In oid (map _id docs).
Proof.
  rewrite List.Forall_forall, in_map_iff. split.
  - intros H (x & E & Hx). exact (H x Hx E).
  - intros H x Hx E. apply H. exists x. split; assumption.
Qed.

(** *** Tags that clean *)



(** *** The ways an update, a read and a delete end *)

Section Writes.
Context (castObjectId : string -> option ObjectId).

Lemma updateRecipe_cases now docs id b :
  (validation.validateRecipe b <> []
   /\ updateRecipe castObjectId now docs id b
      = (Failure 400 "Validation failed" (validation.validateRecipe b), docs))
  \/ (validation.validateRecipe b = []
      /\ cleaned (fun tag => JS.toLowerCase (JS.trim tag)) (body.tags b) = None
      /\ updateRecipe castObjectId now docs id b
         = (Failure 500 "Failed to update recipe" [], docs))
  \/ (exists strs tags',
         Validated b
         /\ strs <> []
         /\ Forall (fun s => JS.truthy (JS.trim s) = true) strs
         /\ cleaned (fun tag => JS.toLowerCase (JS.trim tag)) (body.tags b)
            = Some tags'
         /\ ((castObjectId id = None
              /\ updateRecipe castObjectId now docs id b
                 = (Failure 400 "Invalid recipe ID format" [], docs))
             \/ (exists oid,
                    castObjectId id = Some oid
                    /\ byId oid docs = None
                    /\ updateRecipe castObjectId now docs id b
                       = (Failure 404 "Recipe not found" [], docs))
             \/ (exists pre r post,
                    castObjectId id = Some (_id r)
                    /\ docs = pre ++ r :: post
                    /\ Forall (fun x => _id x <> _id r) pre
                    /\ updateRecipe castObjectId now docs id b
                       = (Success 200
                            (applyUpdate (fieldsOf b strs tags') now r),
                          pre ++ applyUpdate (fieldsOf b strs tags') now r
                              :: post)))).
Proof.
  unfold updateRecipe.
  destruct (validation.validateRecipe b) as [|e errors] eqn:Hv.
  2: { left. split; [discriminate | reflexivity]. }
  right. pose proof (validateRecipe_accepts b Hv) as V.
  destruct (valid_ingredients b V) as (strs & Hi & Hne & Hstrs).
  destruct (cleaned (fun tag => JS.toLowerCase (JS.trim tag)) (body.tags b))
    as [tags'|] eqn:Htags.
  2: { left. split; [reflexivity|]. split; [reflexivity|].
       unfold cleanBody. simpl. rewrite Htags.
       destruct (cleaned JS.trim (body.ingredients b)); reflexivity. }
  right. exists strs, tags'.
  refine (conj V (conj Hne (conj Hstrs (conj eq_refl _)))).
  rewrite (cleanBody_validated b strs tags' Hi Hstrs Htags).
  unfold Recipe_findByIdAndUpdate.
  destruct (castObjectId id) as [oid|]; [|left; split; reflexivity].
  right. rewrite (schemaErrors_validated false b strs tags' V Hstrs).
  destruct (byId oid docs) as [r|] eqn:Hr.
  - right. destruct (byId_split oid docs r Hr) as (pre & post & -> & Hpre & <-).
    exists pre, r, post. rewrite (updateOne_first _ pre r post Hpre).
    repeat split. exact Hpre.
  - left. exists oid. rewrite (updateOne_None _ _ _ (byId_None _ _ Hr)).
    repeat split. exact Hr.
Qed.

Lemma getRecipe_byId docs id :
  getRecipe castObjectId docs id
  = match castObjectId id with
    | Some oid =>
        match byId oid docs with
        | Some r => Success 200 r
        | None => Failure 404 "Recipe not found" []
        end
    | None => Failure 400 "Invalid recipe ID format" []
    end.
Proof.
  unfold getRecipe, Recipe_findById, byId.
  destruct (castObjectId id); reflexivity.
Qed.

Lemma deleteRecipe_cases docs id :
  (castObjectId id = None
   /\ deleteRecipe castObjectId docs id
      = (Failure 400 "Invalid recipe ID format" [], docs))
  \/ (exists oid,
         castObjectId id = Some oid
         /\ byId oid docs = None
         /\ deleteRecipe castObjectId docs id
            = (Failure 404 "Recipe not found" [], docs))
  \/ (exists pre r post,
         castObjectId id = Some (_id r)
         /\ docs = pre ++ r :: post
         /\ Forall (fun x => _id x <> _id r) pre
         /\ deleteRecipe castObjectId docs id
            = (Success 200
                 {| deleted.id := _id r; deleted.title := title r |},
               pre ++ post)).
Proof.
  unfold deleteRecipe, Recipe_findByIdAndDelete.
  destruct (castObjectId id) as [oid|]; [|left; split; reflexivity].
  right. destruct (byId oid docs) as [r|] eqn:Hr.
  - right. destruct (byId_split oid docs r Hr) as (pre & post & -> & Hpre & <-).
    exists pre, r, post. rewrite (removeOne_first pre r post Hpre).
    repeat split. exact Hpre.
  - left. exists oid. rewrite (removeOne_None _ _ (byId_None _ _ Hr)).
    repeat split. exact Hr.
Qed.



Lemma updateRecipe_ids now docs id b :
  map _id (snd (updateRecipe castObjectId now docs id b)) = map _id docs.
Proof.
  destruct (updateRecipe_cases now docs id b)
    as [[_ ->] | [(_ & _ & ->)
       | (strs & tags' & _ & _ & _ & _
          & [[_ ->] | [(oid & _ & _ & ->)
                      | (pre & r & post & _ & -> & _ & ->)]])]];
    try reflexivity.
  simpl. rewrite !map_app. reflexivity.
Qed.


Lemma deleteRecipe_NoDup docs id :
  List.NoDup (map _id docs) ->
  List.NoDup (map _id (snd (deleteRecipe castObjectId docs id))).
Proof.
  intros N.
  destruct (deleteRecipe_cases docs id)
    as [[_ ->] | [(oid & _ & _ & ->) | (pre & r & post & _ & -> & _ & ->)]];
    try exact N.
  simpl. rewrite map_app in *. simpl in N.
  apply List.NoDup_remove_1 in N. exact N.
Qed.


(** X6. Whatever its outcome, an update neither adds nor removes a record
    and changes no identifier: the identifiers of the collection are the
    same, in the same order; a record whose identifier is not the one of
    the request stays as it is, where it is. *)
Theorem update_keeps_identifiers_and_other_records now docs id b :
  let docs' := snd (updateRecipe castObjectId now docs id b) in
  map _id docs' = map _id docs
  /\ forall i r, docs !! i = Some r ->
                 castObjectId id <> Some (_id r) ->
                 docs' !! i = Some r.
Proof.
  destruct (updateRecipe_cases now docs id b)
    as [[_ ->] | [(_ & _ & ->)
       | (strs & tags' & _ & _ & _ & _
          & [[_ ->] | [(oid & _ & _ & ->)
                      | (pre & r & post & Hid & -> & _ & ->)]])]];
    simpl; try (repeat split; auto; fail).
  rewrite !map_app. simpl. repeat split.
  intros i x Hx Hne.
  destruct (lookup_app_Some pre (r :: post) i x) as [[H | [Hlen H]] _];
    [exact Hx | |].
  - apply lookup_app_l_Some. exact H.
  - rewrite lookup_app_r by exact Hlen.
    destruct (i - length pre)%nat as [|j]; simpl in *; [|exact H].
    injection H as <-. congruence.
Qed.

(** X7. Read and delete agree on an identifier: they answer with the same
    status (400, 404 or 200); a delete that is answered 200 takes out of the
    collection exactly the record that a read of the same identifier
    returns, names its identifier and title in the answer and leaves every
    other record in place; a delete that fails leaves the collection as it
    was. *)
Theorem delete_removes_what_get_returns docs id :
  status (fst (deleteRecipe castObjectId docs id))
  = status (getRecipe castObjectId docs id)
  /\ (forall d docs',
         deleteRecipe castObjectId docs id = (Success 200 d, docs') ->
         exists pre r post,
           getRecipe castObjectId docs id = Success 200 r
           /\ d = {| deleted.id := _id r; deleted.title := title r |}
           /\ docs = pre ++ r :: post
           /\ docs' = pre ++ post)
  /\ (forall s m e docs',
         deleteRecipe castObjectId docs id = (Failure s m e, docs') ->
         docs' = docs).
Proof.
  rewrite getRecipe_byId.
  destruct (deleteRecipe_cases docs id)
    as [[-> ->] | [(oid & -> & -> & ->)
                  | (pre & r & post & -> & -> & Hpre & ->)]];
    (split; [try reflexivity | split; [try discriminate | try congruence]]).
  - rewrite (byId_first pre r post Hpre). reflexivity.
  - intros d docs' [= <- <-]. exists pre, r, post.
    rewrite (byId_first pre r post Hpre). repeat split.
Qed.

(** X8. In a collection whose identifiers are distinct, a record that was
    deleted is gone: after a delete that is answered 200, a read and a
    second delete of the same identifier are answered 404, and the read of
    any identifier that casts to another one is answered as before. *)
Theorem deleted_record_is_gone docs id d docs' :
  List.NoDup (map _id docs) ->
  deleteRecipe castObjectId docs id = (Success 200 d, docs') ->
  getRecipe castObjectId docs' id = Failure 404 "Recipe not found" []
  /\ deleteRecipe castObjectId docs' id
     = (Failure 404 "Recipe not found" [], docs')
  /\ forall id', castObjectId id' <> castObjectId id ->
                 getRecipe castObjectId docs' id'
                 = getRecipe castObjectId docs id'.
Proof.
  intros N.
  destruct (deleteRecipe_cases docs id)
    as [[_ ->] | [(oid & _ & _ & ->)
                  | (pre & r & post & Hid & -> & Hpre & ->)]];
    try discriminate.
  intros [= <- <-].
  assert (Forall (fun x => _id x <> _id r) (pre ++ post)) as Habsent.
  { apply absent_not_In. rewrite map_app in *. simpl in N.
    apply List.NoDup_remove_2 in N. exact N. }
  split; [|split].
  - rewrite getRecipe_byId, Hid, (byId_absent _ _ Habsent). reflexivity.
  - destruct (deleteRecipe_cases (pre ++ post) id)
      as [[E _] | [(oid & _ & _ & ->) | (pre' & r' & post' & E & E' & _ & _)]];
      [congruence | reflexivity |].
    exfalso. assert (_id r' = _id r) as Er by congruence.
    rewrite List.Forall_forall in Habsent. apply (Habsent r'); [|exact Er].
    rewrite E'. apply in_or_app. right. left. reflexivity.
  - intros id' Hne. rewrite !getRecipe_byId.
    destruct (castObjectId id') as [oid|]; [|reflexivity].
    assert (oid <> _id r) as Hoid by congruence.
    assert (byId oid (pre ++ post) = byId oid (pre ++ r :: post)) as ->;
      [|reflexivity].
    unfold byId. clear -Hoid. induction pre as [|x pre IH]; simpl.
    + destruct (String.eqb_spec (_id r) oid); [congruence | reflexivity].
    + destruct (String.eqb (_id x) oid); [reflexivity | exact IH].
Qed.

(** X9. A record that was written is read back: after an update that is
    answered 200, a read of the same identifier returns the record of the
    answer; after a create that is answered 201 with an identifier that no
    stored record bears, a read of the text of that identifier returns the
    created record. *)
Theorem written_record_is_read_back now docs id b r docs' :
  (updateRecipe castObjectId now docs id b = (Success 200 r, docs') ->
   getRecipe castObjectId docs' id = Success 200 r)
  /\ (forall oid,
         createRecipe now oid docs b = (Success 201 r, docs') ->
         ~ In oid (map _id docs) ->
         castObjectId id = Some oid ->
         getRecipe castObjectId docs' id = Success 200 r).
Proof.
  split.
  - destruct (updateRecipe_cases now docs id b)
      as [[_ ->] | [(_ & _ & ->)
         | (strs & tags' & _ & _ & _ & _
            & [[_ ->] | [(oid & _ & _ & ->)
                        | (pre & x & post & Hid & -> & Hpre & ->)]])]];
      try discriminate.
    intros [= <- <-]. rewrite getRecipe_byId, Hid.
    change (_id x) with (_id (applyUpdate (fieldsOf b strs tags') now x)).
    rewrite byId_first; [reflexivity | exact Hpre].
  - intros oid Hc Hfresh Hid.
    destruct (createRecipe_cases now oid docs b)
      as [[_ E] | [(_ & _ & E) | (strs & tags' & _ & _ & _ & _ & _ & E)]];
      rewrite E in Hc; try discriminate.
    injection Hc as <- <-. rewrite getRecipe_byId, Hid.
    change oid with (_id (newRecipe now oid (fieldsOf b strs tags'))) at 1.
    rewrite byId_first; [reflexivity|].
    apply absent_not_In. exact Hfresh.
Qed.

End Writes.


(** *** The router *)


Lemma createRecipe_NoDup now oid docs b :
  List.NoDup (map _id docs) ->
  ~ In oid (map _id docs) ->
  List.NoDup (map _id (snd (createRecipe now oid docs b))).
Proof.
  intros N Hfresh.
  destruct (createRecipe_cases now oid docs b)
    as [[_ ->] | [(_ & _ & ->) | (strs & tags' & _ & _ & _ & _ & _ & ->)]];
    try exact N.
  simpl. rewrite map_app. simpl.
  apply List.NoDup_rev in N. rewrite <- (rev_involutive (_ ++ _)).
  apply List.NoDup_rev. rewrite rev_app_distr. simpl.
  constructor; [|exact N]. rewrite <- in_rev. exact Hfresh.
Qed.

Section Router.
Context (castObjectId : string -> option ObjectId)
        (textScore : string -> Recipe -> option Q)
        (regex : string -> option (string -> bool)).


(** X11. Distinct identifiers are an invariant of the collection: if no
    two stored records share an identifier and the identifier that the
    driver would give to a new record is borne by none, then no two records
    share an identifier after any request to the router. *)
Theorem requests_keep_identifiers_distinct now oid docs m path q b :
  List.NoDup (map _id docs) ->
  ~ In oid (map _id docs) ->
  List.NoDup
    (map _id
       (snd (recipes castObjectId textScore regex now oid docs m path q b))).
Proof.
  intros N Hfresh. unfold recipes.
  destruct (route m path) as [| | |id|id|id|]; try exact N.
  - pose proof (createRecipe_NoDup now oid docs b N Hfresh) as H.
    destruct (createRecipe now oid docs b). exact H.
  - pose proof (updateRecipe_ids castObjectId now docs id b) as H.
    destruct (updateRecipe castObjectId now docs id b). simpl in *.
    rewrite H. exact N.
  - pose proof (deleteRecipe_NoDup castObjectId docs id N) as H.
    destruct (deleteRecipe castObjectId docs id). exact H.
Qed.

(** X12. The size of the collection changes by one record at most, and
    only where it should: a request adds a record only if it is a POST
    answered 201, removes one only if it is a DELETE answered 200, and any
    other request, every GET and PUT among them, leaves the number of
    records as it was; a GET leaves the whole collection as it was. *)
Theorem requests_change_the_collection_by_one_record now oid docs m path q b :
  let answer := recipes castObjectId textScore regex now oid docs m path q b in
  (length (snd answer) = S (length docs)
   /\ m = POST /\ exists r, fst answer = One (Success 201 r))
  \/ (S (length (snd answer)) = length docs
      /\ m = DELETE /\ exists d, fst answer = Gone (Success 200 d))
  \/ (length (snd answer) = length docs
      /\ (m = GET -> snd answer = docs)).
Proof.
  unfold recipes, route.
  destruct m, (segmentOf path) as [[s|]|]; simpl;
    try (right; right; split; [reflexivity | auto; discriminate]).
  - destruct (String.eqb _ _); right; right; split; reflexivity.
  - destruct (createRecipe_cases now oid docs b)
      as [[_ ->] | [(_ & _ & ->) | (strs & tags' & _ & _ & _ & _ & _ & ->)]];
      simpl.
    + right. right. split; [reflexivity | discriminate].
    + right. right. split; [reflexivity | discriminate].
    + left. rewrite length_app. simpl. split; [lia|]. split; [reflexivity|].
      eexists. reflexivity.
  - pose proof (updateRecipe_ids castObjectId now docs s b) as H.
    destruct (updateRecipe castObjectId now docs s b) as [res docs'].
    simpl in *. right. right. split; [|discriminate].
    rewrite <- (length_map _id docs'), H. apply length_map.
  - destruct (deleteRecipe_cases castObjectId docs s)
      as [[_ ->] | [(x & _ & _ & ->) | (pre & r & post & _ & -> & _ & ->)]];
      simpl.
    + right. right. split; [reflexivity | discriminate].
    + right. right. split; [reflexivity | discriminate].
    + right. left. rewrite !length_app. simpl. split; [lia|].
      split; [reflexivity|]. eexists. reflexivity.
Qed.

(** X13. The statistics are not routed: no request to the router is
    answered by [getRecipeStats], which the controller exports and the
    router does not import. A [GET /stats] is taken by the layer of
    [/:id] and handed to [getRecipe] with the identifier [stats]; as that
    is not the text of an identifier, the answer is 400 [Invalid recipe ID
    format]. *)
Theorem stats_are_not_routed now oid docs q b :
  castObjectId "stats" = None ->
  (forall m path r,
      fst (recipes castObjectId textScore regex now oid docs m path q b)
      <> Report r)
  /\ recipes castObjectId textScore regex now oid docs GET "/stats" q b
     = (One (Failure 400 "Invalid recipe ID format" []), docs).
Proof.
  intros Hcast. split.
  - intros m path r. unfold recipes.
    destruct (route m path); simpl; try discriminate.
    + destruct (createRecipe now oid docs b); discriminate.
    + destruct (updateRecipe castObjectId now docs id b); discriminate.
    + destruct (deleteRecipe castObjectId docs id); discriminate.
  - unfold recipes. simpl. rewrite getRecipe_byId, Hcast. reflexivity.
Qed.

End Router.


(** *** What the list and the search return *)

Lemma Sorted_drop {A} (R : A -> A -> Prop) n l :
  Sorted R l -> Sorted R (drop n l).
Proof.
  intros H. revert n. induction H as [|x l Hl IH Hx]; intros [|n]; simpl;
    try constructor; try assumption.
  apply IH.
Qed.

(** A relation that holds between neighbours also does when both are known
    to satisfy a predicate that makes it stronger. *)
Lemma Sorted_among {A} (P : A -> Prop) (R S : A -> A -> Prop) l :
  (forall a b, P a -> P b -> R a b -> S a b) ->
  Forall P l -> Sorted R l -> Sorted S l.
Proof.
  intros HRS HP. induction 1 as [|x l Hl IH Hx]; constructor.
  - apply IH. inversion HP; assumption.
  - destruct Hx as [|y l Hxy]; constructor.
    inversion HP as [|? ? Px Prest]; subst.
    inversion Prest; subst. apply HRS; assumption.
Qed.

Lemma window_sorted (R : Recipe -> Recipe -> Prop) skip limit l l' :
  window skip limit l = Some l' -> Sorted R l -> Sorted R l'.
Proof.
  unfold window. destruct skip as [|s|]; try discriminate.
  destruct limit as [|n|]; try discriminate.
  destruct (s <? 0); [discriminate|]. intros [= <-] H.
  destruct (n =? 0); [|apply Sorted_take]; apply Sorted_drop, H.
Qed.

Lemma window_length skip limit l l' :
  window skip limit l = Some l' ->
  (length l' <= length l)%nat
  /\ forall n, limit = JS.Num n -> 0 < n -> (length l' <= Z.to_nat n)%nat.
Proof.
  unfold window. destruct skip as [|s|]; try discriminate.
  destruct limit as [|n|]; try discriminate.
  destruct (s <? 0); [discriminate|]. intros [= <-]. split.
  - destruct (n =? 0); rewrite ?length_take, length_drop; lia.
  - intros n' [= <-] Hn. destruct (Z.eqb_spec n 0); [lia|].
    rewrite length_take, Zabs2Nat.abs_nat_nonneg by lia. lia.
Qed.

Section Results.
Context (textScore : string -> Recipe -> option Q)
        (regex : string -> option (string -> bool)).

(** What a document that matches a query satisfies, clause by clause. *)
Lemma matches_clauses f r :
  matches textScore regex f r = true ->
  (forall s, filter.text f = Some s -> exists x, textScore s r = Some x)
  /\ (forall p, filter.ingredients f = Some p ->
                exists m i, regex p = Some m
                            /\ In i (ingredients r) /\ m i = true)
  /\ (forall d, filter.difficulty f = Some d -> difficulty r = d)
  /\ (forall l, filter.tags f = Some l ->
                exists t, In t (tags r) /\ In t l)
  /\ (forall b, filter.cookingTime f = Some b ->
                exists c, cookingTime r = Some c
                          /\ JS.lt b (JS.Num c) = false)
  /\ (forall b, filter.servings f = Some b ->
                exists c, servings r = Some c
                          /\ JS.lt (JS.Num c) b = false).
Proof.
  unfold matches. rewrite !andb_true_iff.
  intros (((((H1 & H2) & H3) & H4) & H5) & H6).
  split; [|split; [|split; [|split; [|split]]]].
  - intros s E. rewrite E in H1. destruct (textScore s r) as [x|]; eauto.
    discriminate.
  - intros p E. rewrite E in H2. destruct (regex p) as [m|]; [|discriminate].
    apply existsb_exists in H2 as (i & Hi & Hm). eauto.
  - intros d E. rewrite E in H3. apply String.eqb_eq, H3.
  - intros l E. rewrite E in H4.
    apply existsb_exists in H4 as (t & Ht & H4).
    apply existsb_exists in H4 as (t' & Ht' & H4).
    apply String.eqb_eq in H4. subst t'. eauto.
  - intros b E. rewrite E in H5. destruct (cookingTime r) as [c|];
      [|discriminate]. exists c. split; [reflexivity|].
    apply negb_true_iff, H5.
  - intros b E. rewrite E in H6. destruct (servings r) as [c|];
      [|discriminate]. exists c. split; [reflexivity|].
    apply negb_true_iff, H6.
Qed.

Lemma before_total f o a b :
  before textScore f o a b = true \/ before textScore f o b a = true.
Proof.
  assert ((createdAt b <=? createdAt a) = true
          \/ (createdAt a <=? createdAt b) = true) as Hdates.
  { rewrite !Z.leb_le. lia. }
  destruct o; simpl; [exact Hdates|].
  rewrite (Qeq_bool_comm (score textScore f b) (score textScore f a)).
  destruct (Qeq_bool (score textScore f a) (score textScore f b));
    [exact Hdates|].
  rewrite !Qle_bool_iff.
  destruct (Qlt_le_dec (score textScore f a) (score textScore f b)) as [H|H];
    [right; apply Qlt_le_weak, H | left; exact H].
Qed.

Lemma sorted_matches f o docs :
  Sorted (fun a b => before textScore f o a b = true)
    (sortBy (before textScore f o)
       (List.filter (matches textScore regex f) docs)).
Proof. apply sortBy_sorted, before_total. Qed.

Lemma In_sorted_matches f o docs r :
  In r (sortBy (before textScore f o)
          (List.filter (matches textScore regex f) docs)) ->
  In r docs /\ matches textScore regex f r = true.
Proof.
  intros H. apply (Permutation_in r (Permutation_sym (sortBy_perm _ _))) in H.
  apply List.filter_In, H.
Qed.

Lemma length_sorted_matches f o docs :
  length (sortBy (before textScore f o)
            (List.filter (matches textScore regex f) docs))
  = length (List.filter (matches textScore regex f) docs).
Proof. symmetry. apply Permutation_length, sortBy_perm. Qed.

Lemma searchRecipes_success docs req pg :
  searchRecipes textScore regex docs req = Some (Success 200 pg) ->
  exists page limit,
    toNumberOr 1 (query.page req) = Some page
    /\ toNumberOr 10 (query.limit req) = Some limit
    /\ castable regex (searchFilter req) = true
    /\ window (JS.mul (JS.pred page) limit) (parseIntOr 10 (query.limit req))
         (searchMatches textScore regex docs req)
       = Some (page.data pg)
    /\ page.count pg = length (page.data pg)
    /\ pagination.total (page.pagination pg)
       = length (List.filter (matches textScore regex (searchFilter req)) docs)
    /\ pagination.limit (page.pagination pg)
       = parseIntOr 10 (query.limit req).
Proof.
  unfold searchRecipes, Recipe_find, Recipe_countDocuments, searchMatches.
  destruct (toNumberOr 1 (query.page req)) as [page|]; [|discriminate].
  destruct (toNumberOr 10 (query.limit req)) as [limit|]; [|discriminate].
  destruct (castable regex (searchFilter req)); [|discriminate].
  destruct (window _ _ _) as [recipes|] eqn:Hw; [|discriminate].
  intros [= <-]. exists page, limit. repeat split. exact Hw.
Qed.

(** X14. The documents of a list response are stored documents, the most
    recently created first; [count] is their number, which is at most the
    total of the matches and at most the limit when that is positive. *)
Theorem list_returns_stored_records_newest_first docs req pg :
  getAllRecipes textScore regex docs req = Success 200 pg ->
  Sorted (fun a b => createdAt b <= createdAt a) (page.data pg)
  /\ (forall r, In r (page.data pg) -> In r docs)
  /\ page.count pg = length (page.data pg)
  /\ (page.count pg <= pagination.total (page.pagination pg))%nat
  /\ (forall l, pagination.limit (page.pagination pg) = JS.Num l -> 0 < l ->
                (page.count pg <= Z.to_nat l)%nat).
Proof.
  intros Hpg. destruct (getAllRecipes_success _ _ docs req pg Hpg)
    as (recipes & Hw & ->).
  cbn [page.data page.count page.pagination pagination.total pagination.limit].
  unfold listMatches, listTotal in *.
  split; [|split; [|split; [|split]]].
  - apply (window_sorted _ _ _ _ _ Hw).
    apply (Sorted_weaken
             (fun a b => before textScore (listFilter req) CreatedDesc a b
                         = true)); [|apply sorted_matches].
    intros a b H. apply Z.leb_le, H.
  - intros r Hr. apply (window_In _ _ _ _ r Hw) in Hr.
    apply In_sorted_matches in Hr. apply Hr.
  - reflexivity.
  - rewrite <- (length_sorted_matches (listFilter req) CreatedDesc docs).
    apply (window_length _ _ _ _ Hw).
  - apply (window_length _ _ _ _ Hw).
Qed.


(** X16. The documents of a search response come in the order of the sort
    options: without a text search, the most recently created first; with
    one, by decreasing text score, and the most recently created first
    among equal scores. [count] is the number of documents, which is at
    most the total of the matches and at most the limit when that is
    positive. *)
Theorem search_returns_records_in_order docs req pg :
  searchRecipes textScore regex docs req = Some (Success 200 pg) ->
  (JS.given (query.q req) = None ->
   Sorted (fun a b => createdAt b <= createdAt a) (page.data pg))
  /\ (forall s, JS.given (query.q req) = Some s ->
        Sorted
          (fun a b =>
             exists x y,
               textScore s a = Some x /\ textScore s b = Some y
               /\ (y < x \/ (x == y /\ createdAt b <= createdAt a)%Z)%Q)
          (page.data pg))
  /\ page.count pg = length (page.data pg)
  /\ (page.count pg <= pagination.total (page.pagination pg))%nat
  /\ (forall l, pagination.limit (page.pagination pg) = JS.Num l -> 0 < l ->
                (page.count pg <= Z.to_nat l)%nat).
Proof.
  intros Hpg.
  destruct (searchRecipes_success docs req pg Hpg)
    as (page & limit & _ & _ & _ & Hw & -> & -> & ->).
  pose proof (window_sorted _ _ _ _ _ Hw
                (sorted_matches (searchFilter req) (sortOptions req) docs))
    as Hsorted.
  split; [|split; [|split; [|split]]].
  - intros Hq. unfold sortOptions in Hsorted. rewrite Hq in Hsorted.
    apply (Sorted_weaken _ _ _ (fun a b H => proj1 (Z.leb_le _ _) H) Hsorted).
  - intros s Hq. unfold sortOptions in Hsorted. rewrite Hq in Hsorted.
    assert (Forall (fun r => exists x, textScore s r = Some x) (page.data pg))
      as Hscored.
    { apply List.Forall_forall. intros r Hr.
      apply (window_In _ _ _ _ r Hw) in Hr. unfold searchMatches in Hr.
      apply In_sorted_matches in Hr as [_ Hm].
      apply (matches_clauses _ r Hm). unfold searchFilter; cbn [filter.text].
      exact Hq. }
    refine (Sorted_among _ _ _ _ _ Hscored Hsorted).
    intros a b [x Hx] [y Hy] H. exists x, y.
    split; [exact Hx|]. split; [exact Hy|].
    unfold before, score in H. unfold searchFilter in H; cbn [filter.text] in H.
    rewrite Hq, Hx, Hy in H. simpl in H.
    destruct (Qeq_bool x y) eqn:E.
    + right. split; [apply Qeq_bool_iff, E | apply Z.leb_le, H].
    + left. apply Qle_bool_iff in H. apply Qle_lt_or_eq in H as [H|H];
        [exact H|].
      apply Qeq_sym, Qeq_bool_iff in H. congruence.
  - reflexivity.
  - unfold searchMatches in Hw.
    rewrite <- (length_sorted_matches (searchFilter req) (sortOptions req) docs).
    apply (window_length _ _ _ _ Hw).
  - apply (window_length _ _ _ _ Hw).
Qed.

End Results.


(** *** Page arithmetic *)

(** Page [p] of [l] documents each, cut out of [n] matches. *)
Lemma page_arithmetic {A} p l (found : list A) :
  1 <= p -> 1 <= l ->
  Z.of_nat (length (take (Z.to_nat l) (drop (Z.to_nat ((p - 1) * l)) found)))
  = Z.min l (Z.max 0 (Z.of_nat (length found) - (p - 1) * l))
  /\ (JS.lt (JS.Num p) (JS.ceilDiv (Z.of_nat (length found)) (JS.Num l)) = true
      <-> p * l < Z.of_nat (length found))
  /\ exists t,
       JS.ceilDiv (Z.of_nat (length found)) (JS.Num l) = JS.Num t
       /\ (t - 1) * l < Z.of_nat (length found) <= t * l.
Proof.
  intros Hp Hl. set (n := Z.of_nat (length found)).
  assert (JS.ceilDiv n (JS.Num l) = JS.Num (- (- n / l))) as ->.
  { destruct l; [lia | reflexivity | lia]. }
  pose proof (Z.div_mod (- n) l ltac:(lia)) as Hdiv.
  pose proof (Z.mod_pos_bound (- n) l ltac:(lia)) as Hmod.
  set (q := - n / l) in *. set (m := (- n) mod l) in *.
  assert (0 <= (p - 1) * l) as Hskip by nia.
  split; [|split].
  - rewrite length_take, length_drop. fold n.
    set (skip := (p - 1) * l) in *. subst n. lia.
  - cbn [JS.lt]. rewrite Z.ltb_lt. split; intros H; nia.
  - exists (- q). split; [reflexivity | nia].
Qed.

Section Pages.
Context (textScore : string -> Recipe -> option Q)
        (regex : string -> option (string -> bool)).

(** X17. On page [p] of a list response with [l] documents a page (both
    at least 1), out of [total] matches: [count] is what the page holds,
    [min(l, max(0, total - (p - 1) * l))]; [hasNext] is set iff matches
    remain beyond the page, that is iff [p * l < total]; and [totalPages]
    is the least number of pages that hold them all. *)
Theorem list_page_holds_its_share docs req pg p l :
  getAllRecipes textScore regex docs req = Success 200 pg ->
  pagination.currentPage (page.pagination pg) = JS.Num p -> 1 <= p ->
  pagination.limit (page.pagination pg) = JS.Num l -> 1 <= l ->
  let total := Z.of_nat (pagination.total (page.pagination pg)) in
  Z.of_nat (page.count pg) = Z.min l (Z.max 0 (total - (p - 1) * l))
  /\ (pagination.hasNext (page.pagination pg) = true <-> p * l < total)
  /\ exists t,
       pagination.totalPages (page.pagination pg) = JS.Num t
       /\ (t - 1) * l < total <= t * l.
Proof.
  intros Hpg. destruct (getAllRecipes_success _ _ docs req pg Hpg)
    as (recipes & Hw & ->).
  cbn [page.count page.pagination pagination.currentPage pagination.limit
       pagination.total pagination.hasNext pagination.totalPages].
  intros Hpage Hp Hlimit Hl. unfold listSkip in Hw.
  rewrite Hpage, Hlimit in *. cbn [JS.pred JS.mul] in Hw.
  rewrite (window_natural p l _ Hp Hl) in Hw. injection Hw as <-.
  unfold listTotal, listMatches.
  rewrite <- (length_sorted_matches textScore regex (listFilter req)
                CreatedDesc docs).
  apply page_arithmetic; assumption.
Qed.

(** X18. The same for a search response whose [page] and [limit] are
    absent or numerals that [Number] and [parseInt] read alike, as [p] and
    [l], both at least 1. *)
Theorem search_page_holds_its_share docs req pg p l :
  searchRecipes textScore regex docs req = Some (Success 200 pg) ->
  readsAs 1 (query.page req) p -> 1 <= p ->
  readsAs 10 (query.limit req) l -> 1 <= l ->
  let total := Z.of_nat (pagination.total (page.pagination pg)) in
  Z.of_nat (page.count pg) = Z.min l (Z.max 0 (total - (p - 1) * l))
  /\ (pagination.hasNext (page.pagination pg) = true <-> p * l < total)
  /\ exists t,
       pagination.totalPages (page.pagination pg) = JS.Num t
       /\ (t - 1) * l < total <= t * l.
Proof.
  intros Hpg Hpage Hp Hlimit Hl.
  destruct (readsAs_numbers _ _ _ Hpage) as [Hpn Hpi].
  destruct (readsAs_numbers _ _ _ Hlimit) as [Hln Hli].
  destruct (searchRecipes_success _ _ docs req pg Hpg)
    as (page & limit & Epage & Elimit & _ & Hw & -> & -> & _).
  rewrite Hpn in Epage. rewrite Hln in Elimit.
  injection Epage as <-. injection Elimit as <-.
  rewrite Hli in Hw. cbn [JS.pred JS.mul] in Hw.
  rewrite (window_natural p l _ Hp Hl) in Hw.
  injection Hw as Hdata.
  unfold searchRecipes, Recipe_find, Recipe_countDocuments in Hpg.
  rewrite Hpn, Hln in Hpg.
  destruct (castable regex (searchFilter req)); [|discriminate].
  destruct (window _ _ _); [|discriminate].
  injection Hpg as <-.
  cbn [page.pagination pagination.hasNext pagination.totalPages] in *.
  rewrite <- Hdata. unfold searchMatches.
  rewrite <- (length_sorted_matches textScore regex (searchFilter req)
                (sortOptions req) docs).
  apply page_arithmetic; assumption.
Qed.

End Pages.


(** *** The difficulty breakdown and the averages *)

(** The object built from rows with distinct keys has the rows for
    entries. *)
Lemma breakdown_lookup (rows : list (string * nat)) k n :
  List.NoDup (map fst rows) ->
  foldl (fun (acc : gmap string nat) item => <[fst item := snd item]> acc)
    ∅ rows !! k = Some n
  <-> In (k, n) rows.
Proof.
  induction rows as [|[k' n'] rows IH] using rev_ind; intros Hnd.
  - simpl. rewrite lookup_empty. split; [discriminate | intros []].
  - rewrite foldl_app. simpl. rewrite map_app in Hnd. simpl in Hnd.
    apply List.NoDup_remove in Hnd as [Hnd Hfresh].
    rewrite app_nil_r in Hnd, Hfresh.
    rewrite in_app_iff. simpl. destruct (String.eqb_spec k' k) as [->|Hne].
    + rewrite lookup_insert_eq. split.
      * intros [= ->]. right. left. reflexivity.
      * intros [Hin | [[= ->] | []]]; [|reflexivity].
        destruct Hfresh. apply in_map_iff. exists (k, n).
        split; [reflexivity | exact Hin].
    + rewrite lookup_insert_ne by exact Hne. rewrite (IH Hnd). split.
      * intros H. left. exact H.
      * intros [H | [[= E _] | []]]; [exact H | contradiction].
Qed.

(** X19. The difficulty breakdown has one entry for each difficulty that
    some record carries, and its value is the number of records that carry
    it; a difficulty that no record carries has no entry. *)
Theorem difficultyBreakdown_counts_the_records docs :
  exists p,
    getRecipeStats docs = Success 200 p
    /\ forall d n,
         stats.difficultyBreakdown p !! d = Some n
         <-> n = withDifficultyCount d docs /\ (1 <= n)%nat.
Proof.
  eexists. split; [reflexivity|]. intros d n.
  cbn [stats.difficultyBreakdown]. unfold difficultyStats, withDifficultyCount.
  destruct (groupCount_spec (map difficulty docs)) as (Hnd & Hcount & Hall).
  set (le := fun a b : string * nat => String.leb (fst a) (fst b)).
  rewrite breakdown_lookup.
  - split.
    + intros H. apply Hcount.
      apply (Permutation_in _ (Permutation_sym (sortBy_perm le _)) H).
    + intros [-> H]. apply (Permutation_in _ (sortBy_perm le _)).
      apply Hall, H.
  - eapply Permutation_NoDup; [|exact Hnd].
    apply Permutation_map, sortBy_perm.
Qed.







(** *** What a search fails on *)

Section SearchFailures.
Context (textScore : string -> Recipe -> option Q)
        (regex : string -> option (string -> bool)).

(** X21. A search is answered 500 [Failed to search recipes] when the
    store rejects its query: when a bound ([cookingTimeMax] or
    [servingsMin]) is not empty, passes the [isNaN] guard and yet has no
    leading integer for [parseInt] (a blank string does), or when the
    pattern of [ingredient] does not compile. *)
Theorem search_fails_on_what_the_store_rejects docs req res :
  searchRecipes textScore regex docs req = Some res ->
  (exists s, JS.given (query.cookingTimeMax req) = Some s
             /\ JS.isNaN s = false /\ JS.parseIntStr s = JS.NaN)
  \/ (exists s, JS.given (query.servingsMin req) = Some s
                /\ JS.isNaN s = false /\ JS.parseIntStr s = JS.NaN)
  \/ (exists p, JS.given (query.ingredient req) = Some p /\ regex p = None) ->
  res = Failure 500 "Failed to search recipes" [].
Proof.
  intros Hres Hbad.
  assert (castable regex (searchFilter req) = false) as Hcast.
  { unfold castable, searchFilter, numericBound.
    cbn [filter.ingredients filter.cookingTime filter.servings].
    destruct Hbad as [(s & -> & -> & ->) | [(s & -> & -> & ->) | (p & -> & ->)]].
    - apply andb_false_iff. left. apply andb_false_iff. right. reflexivity.
    - apply andb_false_iff. right. reflexivity.
    - reflexivity. }
  unfold searchRecipes, Recipe_find, Recipe_countDocuments in Hres.
  rewrite Hcast in Hres.
  destruct (toNumberOr 1 (query.page req)); [|discriminate].
  destruct (toNumberOr 10 (query.limit req)); [|discriminate].
  injection Hres as <-. reflexivity.
Qed.

End SearchFailures.




Section ForeignTags.
Context (castObjectId : string -> option ObjectId).

(** X22. An update cleans the tags as a create does, and before the
    identifier is looked at: a body that passes validation and whose tags
    hold a truthy value that is not a string is answered 500 [Failed to
    update recipe], whether the identifier is malformed, unknown or that of
    a stored record, and nothing is written. *)
Theorem foreign_tag_fails_update now docs id b l :
  validation.validateRecipe b = [] ->
  body.tags b = Some (JS.JArr l) ->
  hasForeignElement l ->
  updateRecipe castObjectId now docs id b
  = (Failure 500 "Failed to update recipe" [], docs).
Proof.
  intros Hv Ht Hforeign.
  destruct (updateRecipe_cases castObjectId now docs id b)
    as [[Hne _] | [(_ & _ & ->) | (strs & tags' & _ & _ & _ & Htags & _)]];
    [congruence | reflexivity |].
  exfalso. rewrite Ht in Htags. unfold cleaned in Htags.
  destruct (filterKept l) as [kept|] eqn:E; [|discriminate].
  clear Htags Ht. destruct Hforeign as (x & Hin & Htruthy & Hnot).
  revert kept E. induction l as [|y l IH]; [destruct Hin|].
  simpl. intros kept. destruct Hin as [-> | Hin].
  - assert (keeps x = None) as ->; [|discriminate].
    destruct x as [| | |s|]; simpl in *;
      try rewrite Htruthy; try reflexivity; try discriminate.
    destruct (Hnot s eq_refl).
  - destruct (keeps y); [|discriminate].
    destruct (filterKept l) as [rest|]; [|discriminate].
    destruct (IH Hin rest eq_refl).
Qed.

End ForeignTags.


(** ** The properties on the reference engine, and where the specification
    and the code part *)





(** C3 as stated fails: the search response echoes a difficulty whose
    clause was dropped, the raw text of the tags and a bound that is not a
    number. *)
Lemma search_echo_is_not_the_applied_query :
  exists pg e,
    searchRecipes sample.textScore sample.regex
      [sample.pancakes; sample.porridge] sample.sloppySearch
    = Some (Success 200 pg)
    /\ page.searchQuery pg = Some e
    /\ searchQuery.difficulty e = Some "extreme"
    /\ filter.difficulty (searchFilter sample.sloppySearch) = None
    /\ searchQuery.tags e = Some " Quick ,spicy"
    /\ filter.tags (searchFilter sample.sloppySearch) = Some ["quick"; "spicy"]
    /\ searchQuery.cookingTimeMax e = Some "abc"
    /\ filter.cookingTime (searchFilter sample.sloppySearch) = None.
Proof. do 2 eexists. repeat split. Qed.

(** The echo of a request whose difficulty is outside the enum. *)
Lemma search_echoes_raw_parameters_witness :
  exists pg e,
    searchRecipes sample.textScore sample.regex
      [sample.pancakes; sample.porridge] sample.sloppySearch
    = Some (Success 200 pg)
    /\ page.searchQuery pg = Some e
    /\ searchQuery.difficulty e = Some "extreme"
    /\ searchQuery.tags e = Some " Quick ,spicy".
Proof.
  eexists.
  destruct
    (search_echoes_raw_parameters sample.textScore sample.regex
       [sample.pancakes; sample.porridge] sample.sloppySearch _ eq_refl)
    as (e & He & _ & _ & _ & _ & _ & _ & Hd & Ht & _).
  exists e. split; [reflexivity|]. split; [exact He|]. split.
  - apply Hd; [reflexivity | discriminate].
  - apply Ht; [reflexivity | discriminate].
Defined.

(** C4 as stated fails on the empty string, which is outside the enum: the
    list operation adds no clause for it and returns the stored records,
    none of which carries that difficulty. *)
Lemma list_ignores_empty_difficulty :
  validation.isIn validation.difficulties "" = false
  /\ Forall (fun r => difficulty r <> "") [sample.pancakes]
  /\ filter.difficulty (listFilter (withDifficulty (Some "") sample.noQuery))
     = None
  /\ exists pg,
      getAllRecipes sample.textScore sample.regex [sample.pancakes]
        (withDifficulty (Some "") sample.noQuery) = Success 200 pg
      /\ page.data pg = [sample.pancakes]
      /\ pagination.total (page.pagination pg) = 1%nat.
Proof.
  split; [reflexivity|]. split; [repeat constructor; discriminate|].
  split; [reflexivity|]. eexists. repeat split.
Qed.

(** The difficulty [extreme]: dropped by the search, applied by the list. *)
Lemma invalid_difficulty_witness :
  validation.isIn validation.difficulties "extreme" = false
  /\ withoutEcho
       <$> searchRecipes sample.textScore sample.regex
             [sample.pancakes; sample.porridge]
             (withDifficulty (Some "extreme") sample.noQuery)
     = withoutEcho
         <$> searchRecipes sample.textScore sample.regex
               [sample.pancakes; sample.porridge]
               (withDifficulty None sample.noQuery)
  /\ filter.difficulty
       (listFilter (withDifficulty (Some "extreme") sample.noQuery))
     = Some "extreme".
Proof.
  pose proof
    (invalid_difficulty_dropped_by_search_applied_by_list
       sample.textScore sample.regex [sample.pancakes; sample.porridge]
       sample.noQuery "extreme" eq_refl) as (_ & Hsearch & Hlist).
  split; [reflexivity|]. split; [exact Hsearch|].
  apply Hlist. discriminate.
Defined.



(** C6 as stated fails: with no matching record and page 5 the list
    response reports [hasPrev]. *)
Lemma empty_result_on_page_5_has_prev :
  exists pg,
    getAllRecipes sample.textScore sample.regex [] (sample.pageOnly "5")
    = Success 200 pg
    /\ pagination.total (page.pagination pg) = 0%nat
    /\ pagination.totalPages (page.pagination pg) = JS.Num 0
    /\ pagination.hasNext (page.pagination pg) = false
    /\ pagination.hasPrev (page.pagination pg) = true.
Proof. eexists. repeat split. Qed.

(** No matching record, first page: neither flag is set. *)
Lemma list_pagination_flags_witness :
  exists pg,
    getAllRecipes sample.textScore sample.regex [] sample.noQuery
    = Success 200 pg
    /\ pagination.totalPages (page.pagination pg) = JS.Num 0
    /\ pagination.hasNext (page.pagination pg) = false
    /\ pagination.hasPrev (page.pagination pg) = false.
Proof.
  eexists.
  destruct
    (list_pagination_flags sample.textScore sample.regex [] sample.noQuery
       _ eq_refl)
    as (p & t & Hp & _ & Ht & _ & _ & Hzero).
  destruct (Hzero eq_refl) as [-> Hflags].
  injection Hp as <-.
  split; [reflexivity|]. split; [exact Ht|]. apply Hflags. reflexivity.
Defined.

(** C7 as stated fails: a title of two characters is within 1 to 100 and is
    rejected. *)
Lemma two_character_title_is_rejected :
  String.length (JS.trim "ab") = 2%nat
  /\ createRecipe 5000 "64b7f0c2a1d3e4f5a6b7c8db" []
       (sample.recipeBody "ab" ["salt"])
     = (Failure 400 "Validation failed"
          [{| path := "title";
              msg := "Title must be between 3 and 100 characters" |}],
        []).
Proof. split; reflexivity. Qed.

(** A title of four characters is accepted, one of two is not. *)
Lemma title_accepted_witness :
  errorsOn "title"
    (fst (createRecipe 5000 "64b7f0c2a1d3e4f5a6b7c8db" []
            (sample.recipeBody " Soup " ["salt"]))) = []
  /\ errorsOn "title"
       (fst (updateRecipe sample.castObjectId 5000 [sample.pancakes]
               "64b7f0c2a1d3e4f5a6b7c8d9" (sample.recipeBody "ab" ["salt"])))
     = [{| path := "title";
           msg := "Title must be between 3 and 100 characters" |}].
Proof.
  split.
  - apply (title_accepted_iff_3_to_100 sample.castObjectId 5000
             "64b7f0c2a1d3e4f5a6b7c8db" [] "64b7f0c2a1d3e4f5a6b7c8d9"
             (sample.recipeBody " Soup " ["salt"])).
    simpl. lia.
  - apply (title_accepted_iff_3_to_100 sample.castObjectId 5000
             "64b7f0c2a1d3e4f5a6b7c8db" [sample.pancakes]
             "64b7f0c2a1d3e4f5a6b7c8d9" (sample.recipeBody "ab" ["salt"])).
    simpl. lia.
Defined.

(** One record without cooking time and servings: both averages are
    [null]. *)
Lemma averages_null_when_field_unset_witness :
  [sample.porridge] <> []
  /\ exists p,
      getRecipeStats [sample.porridge] = Success 200 p
      /\ stats.totalRecipes (stats.overview p) = 1%nat
      /\ stats.avgCookingTime (stats.overview p) = None
      /\ stats.avgServings (stats.overview p) = None.
Proof.
  split; [discriminate|].
  destruct (averages_null_when_field_unset [sample.porridge] ltac:(discriminate))
    as (p & Hp & Htotal & _ & Hc & Hs).
  exists p. split; [exact Hp|]. split; [exact Htotal|].
  split; [apply Hc | apply Hs]; repeat constructor.
Defined.


(** *** Further properties on the reference engine *)

(** A create with a padded title and no difficulty or tags. *)
Lemma create_stores_a_well_formed_record_witness :
  exists r docs',
    createRecipe 5000 "64b7f0c2a1d3e4f5a6b7c8db" [sample.pancakes]
      (sample.recipeBody "  Salted water " [" salt "; "water"])
    = (Success 201 r, docs')
    /\ WellFormed r
    /\ difficulty r = "medium"
    /\ tags r = [].
Proof.
  eexists. eexists.
  destruct
    (create_stores_a_well_formed_record 5000 "64b7f0c2a1d3e4f5a6b7c8db"
       [sample.pancakes]
       (sample.recipeBody "  Salted water " [" salt "; "water"]) _ _ eq_refl)
    as (W & _ & _ & D & T).
  split; [reflexivity|]. split; [exact W|]. split; [exact D|].
  apply T. reflexivity.
Defined.


(** The tags [["quick", 7]] pass validation and make create fail. *)
Lemma foreign_tag_fails_create_witness :
  validation.validateRecipe
    (sample.taggedBody [JS.JStr "quick"; JS.JNum 7]) = []
  /\ createRecipe 5000 "64b7f0c2a1d3e4f5a6b7c8db" [sample.pancakes]
       (sample.taggedBody [JS.JStr "quick"; JS.JNum 7])
     = (Failure 500 "Failed to create recipe" [], [sample.pancakes]).
Proof.
  assert (validation.validateRecipe
            (sample.taggedBody [JS.JStr "quick"; JS.JNum 7]) = []) as Hv
    by (vm_compute; reflexivity).
  split; [exact Hv|].
  apply (foreign_tag_fails_create 5000 "64b7f0c2a1d3e4f5a6b7c8db"
           [sample.pancakes] (sample.taggedBody [JS.JStr "quick"; JS.JNum 7])
           [JS.JStr "quick"; JS.JNum 7] Hv eq_refl).
  exists (JS.JNum 7). split; [right; left; reflexivity|].
  split; [reflexivity | discriminate].
Defined.




(** The pancakes are deleted; the porridge stays. *)
Lemma deleted_record_is_gone_witness :
  deleteRecipe sample.castObjectId [sample.pancakes; sample.porridge]
    "64b7f0c2a1d3e4f5a6b7c8d9"
  = (Success 200 {| deleted.id := "64b7f0c2a1d3e4f5a6b7c8d9";
                    deleted.title := "Pancakes" |},
     [sample.porridge])
  /\ getRecipe sample.castObjectId [sample.porridge]
       "64b7f0c2a1d3e4f5a6b7c8d9"
     = Failure 404 "Recipe not found" []
  /\ getRecipe sample.castObjectId [sample.porridge]
       "64b7f0c2a1d3e4f5a6b7c8da"
     = Success 200 sample.porridge.
Proof.
  assert (List.NoDup (map _id [sample.pancakes; sample.porridge])) as Hnd.
  { repeat constructor; simpl; intuition discriminate. }
  assert (deleteRecipe sample.castObjectId [sample.pancakes; sample.porridge]
            "64b7f0c2a1d3e4f5a6b7c8d9"
          = (Success 200 {| deleted.id := "64b7f0c2a1d3e4f5a6b7c8d9";
                            deleted.title := "Pancakes" |},
             [sample.porridge])) as Hdel by (vm_compute; reflexivity).
  destruct (deleted_record_is_gone sample.castObjectId _ _ _ _ Hnd Hdel)
    as (Hget & _ & Hother).
  split; [exact Hdel|]. split; [exact Hget|].
  rewrite (Hother "64b7f0c2a1d3e4f5a6b7c8da"); [reflexivity | discriminate].
Defined.




Lemma requests_keep_identifiers_distinct_witness :
  List.NoDup
    (map _id
       (snd (recipes sample.castObjectId sample.textScore sample.regex 5000
               "64b7f0c2a1d3e4f5a6b7c8db" [sample.pancakes; sample.porridge]
               POST "/" sample.noQuery
               (sample.taggedBody [JS.JStr " Hot "; JS.JStr ""])))).
Proof.
  apply requests_keep_identifiers_distinct.
  - repeat constructor; simpl; intuition discriminate.
  - simpl. intuition discriminate.
Defined.


(** [GET /api/recipes/stats] on the reference engine. *)
Lemma stats_are_not_routed_witness :
  recipes sample.castObjectId sample.textScore sample.regex 5000
    "64b7f0c2a1d3e4f5a6b7c8db" [sample.pancakes] GET "/stats" sample.noQuery
    (sample.recipeBody "Pancakes" ["flour"])
  = (One (Failure 400 "Invalid recipe ID format" []), [sample.pancakes]).
Proof.
  assert (sample.castObjectId "stats" = None) as Hcast by reflexivity.
  exact (proj2 (stats_are_not_routed sample.castObjectId sample.textScore
                  sample.regex 5000 "64b7f0c2a1d3e4f5a6b7c8db"
                  [sample.pancakes] sample.noQuery
                  (sample.recipeBody "Pancakes" ["flour"]) Hcast)).
Defined.


(** The list of the two examples: the porridge, created last, comes
    first. *)
Lemma list_returns_stored_records_newest_first_witness :
  exists pg,
    getAllRecipes sample.textScore sample.regex
      [sample.pancakes; sample.porridge] sample.noQuery
    = Success 200 pg
    /\ page.data pg = [sample.porridge; sample.pancakes]
    /\ Sorted (fun a b => createdAt b <= createdAt a) (page.data pg).
Proof.
  eexists.
  destruct
    (list_returns_stored_records_newest_first sample.textScore sample.regex
       [sample.pancakes; sample.porridge] sample.noQuery _ eq_refl)
    as (Hsorted & _).
  split; [reflexivity|]. split; [reflexivity | exact Hsorted].
Defined.




Lemma search_returns_records_in_order_witness :
  exists pg,
    searchRecipes sample.textScore sample.regex
      [sample.pancakes; sample.porridge] sample.noQuery
    = Some (Success 200 pg)
    /\ page.data pg = [sample.porridge; sample.pancakes]
    /\ Sorted (fun a b => createdAt b <= createdAt a) (page.data pg).
Proof.
  eexists.
  destruct
    (search_returns_records_in_order sample.textScore sample.regex
       [sample.pancakes; sample.porridge] sample.noQuery _ eq_refl)
    as (Hsorted & _).
  split; [reflexivity|]. split; [reflexivity | apply Hsorted; reflexivity].
Defined.


(** Page 1 of 10 out of two matches holds both and has no next page. *)
Lemma list_page_holds_its_share_witness :
  exists pg,
    getAllRecipes sample.textScore sample.regex
      [sample.pancakes; sample.porridge] sample.noQuery
    = Success 200 pg
    /\ Z.of_nat (page.count pg) = 2
    /\ (pagination.hasNext (page.pagination pg) = true <-> 1 * 10 < 2).
Proof.
  eexists.
  destruct
    (list_page_holds_its_share sample.textScore sample.regex
       [sample.pancakes; sample.porridge] sample.noQuery _ 1 10
       eq_refl eq_refl ltac:(lia) eq_refl ltac:(lia))
    as (Hcount & Hnext & _).
  split; [reflexivity|]. split; [exact Hcount | exact Hnext].
Defined.


Lemma search_page_holds_its_share_witness :
  exists pg,
    searchRecipes sample.textScore sample.regex
      [sample.pancakes; sample.porridge] sample.noQuery
    = Some (Success 200 pg)
    /\ Z.of_nat (page.count pg) = 2
    /\ (pagination.hasNext (page.pagination pg) = true <-> 1 * 10 < 2).
Proof.
  eexists.
  destruct
    (search_page_holds_its_share sample.textScore sample.regex
       [sample.pancakes; sample.porridge] sample.noQuery _ 1 10
       eq_refl eq_refl ltac:(lia) eq_refl ltac:(lia))
    as (Hcount & Hnext & _).
  split; [reflexivity|]. split; [exact Hcount | exact Hnext].
Defined.


(** [?cookingTimeMax=%20]: the blank passes [isNaN] and [parseInt] makes
    nothing of it. *)
Lemma search_fails_on_what_the_store_rejects_witness :
  searchRecipes sample.textScore sample.regex [sample.pancakes]
    (sample.within " ")
  = Some (Failure 500 "Failed to search recipes" []).
Proof.
  assert (exists res,
             searchRecipes sample.textScore sample.regex [sample.pancakes]
               (sample.within " ") = Some res) as [res Hres]
    by (eexists; reflexivity).
  rewrite Hres. f_equal.
  apply (search_fails_on_what_the_store_rejects sample.textScore sample.regex
           [sample.pancakes] (sample.within " ") res Hres).
  left. exists " ". repeat split.
Defined.


(** The tags [["quick", 7]] on an update of a stored record. *)
Lemma foreign_tag_fails_update_witness :
  updateRecipe sample.castObjectId 5000 [sample.pancakes]
    "64b7f0c2a1d3e4f5a6b7c8d9" (sample.taggedBody [JS.JStr "quick"; JS.JNum 7])
  = (Failure 500 "Failed to update recipe" [], [sample.pancakes]).
Proof.
  assert (validation.validateRecipe
            (sample.taggedBody [JS.JStr "quick"; JS.JNum 7]) = []) as Hv
    by (vm_compute; reflexivity).
  apply (foreign_tag_fails_update sample.castObjectId 5000 [sample.pancakes]
           "64b7f0c2a1d3e4f5a6b7c8d9"
           (sample.taggedBody [JS.JStr "quick"; JS.JNum 7])
           [JS.JStr "quick"; JS.JNum 7] Hv eq_refl).
  exists (JS.JNum 7). split; [right; left; reflexivity|].
  split; [reflexivity | discriminate].
Defined.
